(** * Taxed Token Launchpad: the client's instruction codec, log and action handlers

    A shallow embedding of [app/src/components/ProgramControls.tsx] (the React
    component that drives the token workflow) and of the fee computation and
    payload construction of [tests/taxed-token-launchpad.ts].

    JavaScript values are modelled as follows.
    - A [number] is [NaN], an infinity, an integral value (a [Z]; every
      integral double is one) or some non-integral finite value.
    - A [bigint] is a [Z].
    - A [Buffer] is a list of bytes, each a [Z] in [0, 256).
    - A thrown exception is a [Throw] completion carrying the error object.
    - The component's [useState] cells are the fields of [State]; the
      wallet, the connection and the library calls are the fields of [Env],
      one environment per handler invocation. *)

From Stdlib Require Import ZArith List String Ascii Bool Lia DecimalString.
Import ListNotations.
Local Open Scope string_scope.
Local Open Scope list_scope.
Local Open Scope Z_scope.

Declare Scope js_scope.
Delimit Scope js_scope with js.
Infix "+++" := String.append (at level 60, right associativity) : js_scope.
Local Open Scope js_scope.

(** ** JavaScript values *)

Module Js.

(** An error object, observed through [e.message] and [e.toString()]. *)
Record Error : Type := mkError { message : string; toString : string }.

(** [e.message || e.toString()] : the empty string is falsy. *)
Definition text (e : Error) : string :=
  if String.eqb (message e) EmptyString then toString e else message e.

Inductive completion (A : Type) : Type :=
| Normal (a : A)
| Throw (e : Error).
Arguments Normal {A} a.
Arguments Throw {A} e.

Inductive number : Type :=
| NaN
| Infinity (negative : bool)
| Integral (z : Z)
| Fractional.

(** [!n] on a number: [NaN] and both zeros are falsy. *)
Definition not_number (n : number) : bool :=
  match n with
  | NaN => true
  | Integral 0 => true
  | _ => false
  end.

(** [!s] on a string. *)
Definition not_string (s : string) : bool := String.eqb s EmptyString.

(** [a || b] on strings. *)
Definition or_string (a b : string) : string :=
  if not_string a then b else a.

Definition RangeError_not_an_integer : Error :=
  mkError "The number cannot be converted to a BigInt because it is not an integer"
          "RangeError: The number cannot be converted to a BigInt because it is not an integer".

Definition RangeError_out_of_range : Error :=
  mkError "The value of value is out of range. It must be >= 0n and < 2n ** 64n"
          "RangeError [ERR_OUT_OF_RANGE]: The value of value is out of range".

Definition RangeError_offset : Error :=
  mkError "Attempt to access memory outside buffer bounds"
          "RangeError [ERR_BUFFER_OUT_OF_BOUNDS]: Attempt to access memory outside buffer bounds".

Definition TypeError_null : Error :=
  mkError "Cannot read properties of null" "TypeError: Cannot read properties of null".

(** [BigInt(n)] for a number [n] : throws unless [n] is integral. *)
Definition BigInt (n : number) : completion Z :=
  match n with
  | Integral z => Normal z
  | _ => Throw RangeError_not_an_integer
  end.

(** [z.toString()] for a bigint or an integral number. *)
Definition Z_toString (z : Z) : string := NilZero.string_of_int (Z.to_int z).

Definition is_space (c : ascii) : bool :=
  let n := nat_of_ascii c in
  (Nat.eqb n 32 || (Nat.leb 9 n && Nat.leb n 13))%bool.

Fixpoint trimStart (s : string) : string :=
  match s with
  | String c s' => if is_space c then trimStart s' else s
  | EmptyString => EmptyString
  end.

Fixpoint rev_string (acc s : string) : string :=
  match s with
  | String c s' => rev_string (String c acc) s'
  | EmptyString => acc
  end.

(** [s.trim()], on the ASCII white space characters. *)
Definition trim (s : string) : string :=
  rev_string EmptyString (trimStart (rev_string EmptyString (trimStart s))).

(** [Math.ceil(a / b)] for integral [a] and positive integral [b], where
    the quotient is exact in double precision. *)
Definition Math_ceil_div (a b : Z) : Z := - ((- a) / b).

End Js.

Import Js.

(** ** Buffers *)

Definition Buffer : Type := list Z.

(** [Buffer.alloc(n)] : [n] zero bytes. *)
Definition Buffer_alloc (n : nat) : Buffer := repeat 0 n.

(** [Buffer.from(array)] : every entry is stored modulo 256. *)
Definition Buffer_from (l : list Z) : Buffer := map (fun x => Z.land x 255) l.

(** [Buffer.concat(list)]. *)
Definition Buffer_concat (l : list Buffer) : Buffer := List.concat l.

(** Byte [i] of [value], least significant first. *)
Definition byte_at (value : Z) (i : nat) : Z :=
  Z.land (Z.shiftr value (8 * Z.of_nat i)) 255.

(** [buf.writeBigUInt64LE(value, offset)] : the value is range-checked, then
    its eight bytes are stored from [offset] on, least significant first. *)
Definition writeBigUInt64LE (buf : Buffer) (value : Z) (offset : nat) : completion Buffer :=
  if ((0 <=? value) && (value <? 2 ^ 64))%bool then
    if (offset + 8 <=? List.length buf)%nat then
      Normal (firstn offset buf ++ map (byte_at value) (seq 0 8) ++ skipn (offset + 8) buf)
    else Throw RangeError_offset
  else Throw RangeError_out_of_range.

(** [buf.readBigUInt64LE(offset)] restricted to a full eight-byte window; the
    reader of the fields that [writeBigUInt64LE] stores. *)
Fixpoint le_value (bytes : list Z) : Z :=
  match bytes with
  | [] => 0
  | b :: rest => b + 256 * le_value rest
  end.

Definition readBigUInt64LE (buf : Buffer) (offset : nat) : Z :=
  le_value (firstn 8 (skipn offset buf)).

(** [u64ToBufferLE], declared inside the transfer handler and again in the
    integration test:
<<
    function u64ToBufferLE(n: number | bigint) {
      const buf = Buffer.alloc(8)
      buf.writeBigUInt64LE(BigInt(n))
      return buf
    }
>> *)
Definition u64ToBufferLE (n : number) : completion Buffer :=
  let buf := Buffer_alloc 8 in
  match BigInt n with
  | Normal v => writeBigUInt64LE buf v 0
  | Throw e => Throw e
  end.

(** The payload both call sites build:
<<
    Buffer.concat([
      Buffer.from([26, 1]),
      u64ToBufferLE(amount),
      Buffer.from([decimals]),
      u64ToBufferLE(fee),
    ])
>> *)
Definition transferCheckedWithFeeData (amount : number) (decimals : Z) (fee : number)
  : completion Buffer :=
  let header := Buffer_from [26; 1] in
  match u64ToBufferLE amount with
  | Throw e => Throw e
  | Normal a =>
      let d := Buffer_from [decimals] in
      match u64ToBufferLE fee with
      | Throw e => Throw e
      | Normal f => Normal (Buffer_concat [header; a; d; f])
      end
  end.

(** ** The log *)

(** [const pushLog = (s: string) => setLogs((l) => [s, ...l].slice(0, 20))] :
    the state update applied to the current log. *)
Definition pushLog (s : string) (l : list string) : list string :=
  firstn 20 (s :: l).

(** ** The component: data *)

Definition PublicKey : Type := string.   (* a key, by its base58 text *)
Definition Signature : Type := string.

Record AccountMeta : Type :=
  { pubkey : option PublicKey; isSigner : bool; isWritable : bool }.

(** Instructions, named after the library functions that build them; the
    program ids they are called with are always [TOKEN_2022_PROGRAM_ID] and
    [ASSOCIATED_TOKEN_PROGRAM_ID] and are left out.  An argument the source
    passes through a non-null assertion ([selectedMint!], [wallet.publicKey!])
    is an [option]: [None] is a [null] that went through.  The builders are
    taken to be total: where a library builder would throw (a negative
    mint-to amount), no statement below speaks of what follows the call. *)
Inductive Instruction : Type :=
| createAssociatedTokenAccountInstruction
    (payer : option PublicKey) (associatedToken : PublicKey)
    (owner mint : option PublicKey)
| createMintToInstruction (mint destination authority : PublicKey) (amount : Z)
| TransactionInstruction (keys : list AccountMeta) (data : Buffer)
| withdrawWithheldTokensFromMint
    (mint : option PublicKey) (destination : PublicKey) (authority : option PublicKey).

Definition Transaction : Type := list Instruction.

(** The two methods of the launchpad program, with the accounts and signers
    they are called with. *)
Inductive Method : Type :=
| createTaxedToken_method
    (decimals transferFeeBps maximumFee : Z)
    (payer : option PublicKey) (mint : PublicKey)
    (mintAuthority feeWithdrawAuthority freezeAuthority : option PublicKey)
    (signers : list PublicKey)
| createSoulboundToken_method
    (decimals : Z)
    (payer : option PublicKey) (mint : PublicKey)
    (mintAuthority freezeAuthority : option PublicKey)
    (signers : list PublicKey).

(** What [connection.getAccountInfo] yields for an existing account. *)
Definition AccountInfo : Type := Buffer.

(** What [connection.confirmTransaction] resolves to: the status of the
    transaction, [err = None] when it succeeded.  No handler reads it. *)
Record SignatureResult : Type := { err : option string }.

(** What [getAccount] yields: the balance and, when the account carries the
    transfer-fee extension, the withheld amount. *)
Record Account : Type := { amount : Z; withheldAmount : option Z }.

Inductive Program : Type := program.

(** The collaborators of one handler invocation.  [PROGRAM_ID] is
    [new PublicKey(idl.address)]; the IDL file is not part of the sources.
    [Number_] is the global [Number] applied to a string. *)
Record Env : Type :=
  { PROGRAM_ID : PublicKey;
    wallet_publicKey : option PublicKey;
    wallet_connected : bool;
    Keypair_generate : PublicKey;
    Number_ : string -> number;
    new_PublicKey : string -> completion PublicKey;
    getAssociatedTokenAddress : PublicKey -> PublicKey -> completion PublicKey;
    rpc : Method -> completion Signature;
    getAccountInfo : PublicKey -> completion (option AccountInfo);
    sendTransaction : Transaction -> completion Signature;
    confirmTransaction : Signature -> completion SignatureResult;
    getAccount : PublicKey -> completion Account }.

(** The [useState] cells of the component. *)
Record State : Type :=
  { logs : list string;
    selectedMint : option PublicKey;
    payerAta : option PublicKey;
    payerBalance : string;
    mintAmount : number }.

Definition initial : State :=
  {| logs := []; selectedMint := None; payerAta := None;
     payerBalance := "0"; mintAmount := Integral 1000000 |}.

Definition set_logs (l : list string) (st : State) : State :=
  {| logs := l; selectedMint := selectedMint st; payerAta := payerAta st;
     payerBalance := payerBalance st; mintAmount := mintAmount st |}.

Definition set_selectedMint (m : option PublicKey) (st : State) : State :=
  {| logs := logs st; selectedMint := m; payerAta := payerAta st;
     payerBalance := payerBalance st; mintAmount := mintAmount st |}.

Definition set_payerAta (a : option PublicKey) (st : State) : State :=
  {| logs := logs st; selectedMint := selectedMint st; payerAta := a;
     payerBalance := payerBalance st; mintAmount := mintAmount st |}.

Definition set_payerBalance (b : string) (st : State) : State :=
  {| logs := logs st; selectedMint := selectedMint st; payerAta := payerAta st;
     payerBalance := b; mintAmount := mintAmount st |}.

Definition set_mintAmount (n : number) (st : State) : State :=
  {| logs := logs st; selectedMint := selectedMint st; payerAta := payerAta st;
     payerBalance := payerBalance st; mintAmount := n |}.

(** The tracked fields: selected mint, payer associated account, payer balance. *)
Definition tracked (st : State) : option PublicKey * option PublicKey * string :=
  (selectedMint st, payerAta st, payerBalance st).

(** ** The component: effects *)

(** Calls a handler makes, in the order it makes them. *)
Inductive Call : Type :=
| Keypair_generate_call
| new_PublicKey_call (v : string)
| getAssociatedTokenAddress_call (mint owner : option PublicKey)
| data_call (amt : number)
| instruction_call (ix : Instruction)
| rpc_call (m : Method)
| getAccountInfo_call (address : PublicKey)
| sendTransaction_call (tx : Transaction)
| confirmTransaction_call (sig : Signature)
| getAccount_call (address : PublicKey).

Inductive Field : Type :=
| selectedMint_field | payerAta_field | payerBalance_field | mintAmount_field.

(** [Called c ok] : call [c] was made and returned ([ok]) or threw;
    [Updated f] : the setter of cell [f] was called; [Logged s] : [pushLog s]. *)
Inductive Event : Type :=
| Called (c : Call) (ok : bool)
| Updated (f : Field)
| Logged (s : string).

(** How a handler run ended: at its last statement ([Succeeded]), at the
    [return] of a precondition guard ([Guarded]) or in its [catch] block
    ([Caught]).  An exception that escapes the handler is a [Throw]. *)
Inductive Outcome : Type := Succeeded | Guarded | Caught.

(** State, exceptions and the trace of events. *)
Definition M (A : Type) : Type := State -> completion A * State * list Event.

Definition ret {A} (a : A) : M A := fun st => (Normal a, st, []).

Definition bind {A B} (m : M A) (k : A -> M B) : M B :=
  fun st =>
    match m st with
    | (Normal a, st1, t1) =>
        match k a st1 with
        | (r, st2, t2) => (r, st2, t1 ++ t2)
        end
    | (Throw e, st1, t1) => (Throw e, st1, t1)
    end.

Notation "x <- m ;; k" := (bind m (fun x => k))
  (at level 61, m at next level, right associativity) : js_scope.
Notation "m ;; k" := (bind m (fun _ => k))
  (at level 61, right associativity) : js_scope.

(** [try { body } catch (e) { handler }] : what [body] did to the state
    before it threw stays done. *)
Definition try_catch {A} (body : M A) (handler : Error -> M A) : M A :=
  fun st =>
    match body st with
    | (Normal a, st1, t1) => (Normal a, st1, t1)
    | (Throw e, st1, t1) =>
        match handler e st1 with
        | (r, st2, t2) => (r, st2, t1 ++ t2)
        end
    end.

(** The values a callback closed over at render time. *)
Definition captured {A} (body : State -> M A) : M A := fun st => body st st.

Definition is_normal {A} (r : completion A) : bool :=
  match r with Normal _ => true | Throw _ => false end.

Definition call {A} (c : Call) (r : completion A) : M A :=
  fun st => (r, st, [Called c (is_normal r)]).

(** A value computed locally that may throw. *)
Definition lift {A} (r : completion A) : M A := fun st => (r, st, []).

Definition log (s : string) : M unit :=
  fun st => (Normal tt, set_logs (pushLog s (logs st)) st, [Logged s]).

Definition setSelectedMint (m : PublicKey) : M unit :=
  fun st => (Normal tt, set_selectedMint (Some m) st, [Updated selectedMint_field]).

Definition setPayerAta (a : PublicKey) : M unit :=
  fun st => (Normal tt, set_payerAta (Some a) st, [Updated payerAta_field]).

Definition setPayerBalance (b : string) : M unit :=
  fun st => (Normal tt, set_payerBalance b st, [Updated payerBalance_field]).

Definition setMintAmount (n : number) : M unit :=
  fun st => (Normal tt, set_mintAmount n st, [Updated mintAmount_field]).

(** [await getAssociatedTokenAddress(mint, owner, false, ...)] where either
    argument may be a [null] passed through a non-null assertion. *)
Definition getAssociatedTokenAddress_ (env : Env) (mint owner : option PublicKey)
  : M PublicKey :=
  call (getAssociatedTokenAddress_call mint owner)
       match mint, owner with
       | Some m, Some o => getAssociatedTokenAddress env m o
       | _, _ => Throw TypeError_null
       end.

Definition instruction (ix : Instruction) : M Instruction :=
  call (instruction_call ix) (Normal ix).

(** [sig = await wallet.sendTransaction(tx, connection);
     await connection.confirmTransaction(sig, 'confirmed')] *)
Definition sendAndConfirm (env : Env) (tx : Transaction) : M Signature :=
  sig <- call (sendTransaction_call tx) (sendTransaction env tx) ;;
  _ <- call (confirmTransaction_call sig) (confirmTransaction env sig) ;;
  ret sig.

(** ** The component: handlers *)

Module ProgramControls.

(** [loadProgram] : [null] when the wallet has no public key. *)
Definition loadProgram (env : Env) : M (option Program) :=
  match wallet_publicKey env with
  | None =>
      log "Wallet not connected" ;;
      ret None
  | Some _ =>
      log ("Program loaded: " +++ PROGRAM_ID env) ;;
      ret (Some program)
  end.

Definition createTaxedToken (env : Env) : M Outcome :=
  p <- loadProgram env ;;
  match p with
  | None => ret Guarded
  | Some _ =>
      mint <- call Keypair_generate_call (Normal (Keypair_generate env)) ;;
      let decimals := 6 in
      let transferFeeBps := 100 in
      let maximumFee := 1000000 in
      log ("Creating taxed token, mint: " +++ mint) ;;
      try_catch
        (let m := createTaxedToken_method decimals transferFeeBps maximumFee
                    (wallet_publicKey env) mint (wallet_publicKey env)
                    (wallet_publicKey env) (wallet_publicKey env) [mint] in
         sig <- call (rpc_call m) (rpc env m) ;;
         log ("createTaxedToken succeeded: " +++ sig) ;;
         setSelectedMint mint ;;
         ret Succeeded)
        (fun e =>
           log ("createTaxedToken failed: " +++ text e) ;;
           ret Caught)
  end.

Definition createSoulboundToken (env : Env) : M Outcome :=
  p <- loadProgram env ;;
  match p with
  | None => ret Guarded
  | Some _ =>
      mint <- call Keypair_generate_call (Normal (Keypair_generate env)) ;;
      let decimals := 6 in
      log ("Creating soulbound token, mint: " +++ mint) ;;
      try_catch
        (let m := createSoulboundToken_method decimals
                    (wallet_publicKey env) mint (wallet_publicKey env)
                    (wallet_publicKey env) [mint] in
         sig <- call (rpc_call m) (rpc env m) ;;
         log ("createSoulboundToken succeeded: " +++ sig) ;;
         setSelectedMint mint ;;
         ret Succeeded)
        (fun e =>
           log ("createSoulboundToken failed: " +++ text e) ;;
           ret Caught)
  end.

Definition createPayerAta (env : Env) : M Outcome :=
  captured (fun st =>
    match selectedMint st with
    | None =>
        log "No mint selected" ;;
        ret Guarded
    | Some mint =>
        match wallet_publicKey env with
        | None =>
            log "Wallet not connected" ;;
            ret Guarded
        | Some owner =>
            try_catch
              (ata <- getAssociatedTokenAddress_ env (Some mint) (Some owner) ;;
               info <- call (getAccountInfo_call ata) (getAccountInfo env ata) ;;
               match info with
               | Some _ =>
                   log ("Payer ATA already exists: " +++ ata) ;;
                   setPayerAta ata ;;
                   ret Succeeded
               | None =>
                   ix <- instruction
                           (createAssociatedTokenAccountInstruction
                              (Some owner) ata (Some owner) (Some mint)) ;;
                   sig <- sendAndConfirm env [ix] ;;
                   log ("Created payer ATA: " +++ ata +++ " (" +++ sig +++ ")") ;;
                   setPayerAta ata ;;
                   ret Succeeded
               end)
              (fun e =>
                 log ("createPayerAta failed: " +++ text e) ;;
                 ret Caught)
        end
    end).

(** [mintToPayer(amount?)] ; [BigInt(amount ?? mintAmount)] is evaluated
    before the [try]. *)
Definition mintToPayer (env : Env) (amount : option number) : M Outcome :=
  captured (fun st =>
    match selectedMint st, payerAta st with
    | Some mint, Some ata =>
        match wallet_publicKey env with
        | None =>
            log "Wallet not connected" ;;
            ret Guarded
        | Some authority =>
            amt <- lift (BigInt match amount with
                                | Some a => a
                                | None => mintAmount st
                                end) ;;
            try_catch
              (ix <- instruction (createMintToInstruction mint ata authority amt) ;;
               sig <- sendAndConfirm env [ix] ;;
               log ("mintTo succeeded: " +++ sig +++ " amount: " +++ Z_toString amt) ;;
               ret Succeeded)
              (fun e =>
                 log ("mintTo failed: " +++ text e) ;;
                 ret Caught)
        end
    | _, _ =>
        log "Missing mint or payer ATA" ;;
        ret Guarded
    end).

(** [withheldAmount || 0] *)
Definition withheld_of (acc : Account) : Z :=
  match withheldAmount acc with
  | Some w => w
  | None => 0
  end.

Definition refreshPayerBalance (env : Env) : M Outcome :=
  captured (fun st =>
    match payerAta st with
    | None =>
        log "No payer ATA" ;;
        ret Guarded
    | Some ata =>
        try_catch
          (acc <- call (getAccount_call ata) (getAccount env ata) ;;
           let amount := Z_toString (amount acc) in
           setPayerBalance amount ;;
           let withheld := withheld_of acc in
           log ("Payer ATA balance: " +++ amount +++ " withheld: " +++ Z_toString withheld) ;;
           ret Succeeded)
          (fun e =>
             log ("refreshPayerBalance failed: " +++ text e) ;;
             ret Caught)
    end).

(** The [onClick] of "Create/Get Recipient ATA"; [recipientPubkey] is the
    value of the input of that id. *)
Definition createRecipientAta (env : Env) (recipientPubkey : string) : M Outcome :=
  captured (fun st =>
    let v := trim recipientPubkey in
    if not_string v then
      log "Enter recipient public key" ;;
      ret Guarded
    else
      try_catch
        (pk <- call (new_PublicKey_call v) (new_PublicKey env v) ;;
         ata <- getAssociatedTokenAddress_ env (selectedMint st) (Some pk) ;;
         info <- call (getAccountInfo_call ata) (getAccountInfo env ata) ;;
         match info with
         | Some _ =>
             log ("Recipient ATA exists: " +++ ata) ;;
             ret Succeeded
         | None =>
             ix <- instruction
                     (createAssociatedTokenAccountInstruction
                        (wallet_publicKey env) ata (Some pk) (selectedMint st)) ;;
             sig <- sendAndConfirm env [ix] ;;
             log ("Created recipient ATA: " +++ ata +++ " (" +++ sig +++ ")") ;;
             ret Succeeded
         end)
        (fun e =>
           log ("createRecipientAta failed: " +++ text e) ;;
           ret Caught)).

(** The payload of the transfer handler: [decimals = 6] and the fee field
    is [u64ToBufferLE(0)]. *)
Definition data (amt : number) : completion Buffer :=
  let decimals := 6 in
  transferCheckedWithFeeData amt decimals (Integral 0).

(** The [onClick] of "Transfer With Fee"; [recipientPubkey2] and
    [transferAmount] are the values of the inputs of those ids. *)
Definition transferWithFee (env : Env) (recipientPubkey2 transferAmount : string)
  : M Outcome :=
  captured (fun st =>
    try_catch
      (let v := trim recipientPubkey2 in
       let amt := Number_ env (or_string transferAmount "0") in
       if (not_string v || not_number amt)%bool then
         log "Provide recipient and amount" ;;
         ret Guarded
       else
         recipientPk <- call (new_PublicKey_call v) (new_PublicKey env v) ;;
         recipientAta <- getAssociatedTokenAddress_ env (selectedMint st) (Some recipientPk) ;;
         data <- call (data_call amt) (data amt) ;;
         payerAtaLocal <- getAssociatedTokenAddress_ env (selectedMint st) (wallet_publicKey env) ;;
         ix <- instruction
                 (TransactionInstruction
                    [ {| pubkey := Some payerAtaLocal; isSigner := false; isWritable := true |};
                      {| pubkey := selectedMint st; isSigner := false; isWritable := false |};
                      {| pubkey := Some recipientAta; isSigner := false; isWritable := true |};
                      {| pubkey := wallet_publicKey env; isSigner := true; isWritable := false |} ]
                    data) ;;
         sig <- sendAndConfirm env [ix] ;;
         log ("TransferWithFee succeeded: " +++ sig) ;;
         ret Succeeded)
      (fun e =>
         log ("transferWithFee failed: " +++ text e) ;;
         ret Caught)).

(** The [onClick] of "Inspect Recipient ATA". *)
Definition inspectRecipient (env : Env) (recipientPubkey3 : string) : M Outcome :=
  captured (fun st =>
    try_catch
      (let v := trim recipientPubkey3 in
       if not_string v then
         log "Enter recipient public key" ;;
         ret Guarded
       else
         pk <- call (new_PublicKey_call v) (new_PublicKey env v) ;;
         ata <- getAssociatedTokenAddress_ env (selectedMint st) (Some pk) ;;
         acc <- call (getAccount_call ata) (getAccount env ata) ;;
         let withheld := withheld_of acc in
         log ("Recipient ATA " +++ ata +++ " balance: " +++ Z_toString (amount acc)
                +++ " withheld: " +++ Z_toString withheld) ;;
         ret Succeeded)
      (fun e =>
         log ("inspectRecipient failed: " +++ text e) ;;
         ret Caught)).

(** The [onClick] of "Withdraw Withheld to ATA". *)
Definition withdrawWithheld (env : Env) (withdrawDest : string) : M Outcome :=
  captured (fun st =>
    try_catch
      (match selectedMint st with
       | None =>
           log "No mint selected" ;;
           ret Guarded
       | Some _ =>
           let v := trim withdrawDest in
           if not_string v then
             log "Enter destination ATA pubkey" ;;
             ret Guarded
           else
             dest <- call (new_PublicKey_call v) (new_PublicKey env v) ;;
             payerAtaLocal <- getAssociatedTokenAddress_ env (selectedMint st) (wallet_publicKey env) ;;
             ix <- instruction
                     (withdrawWithheldTokensFromMint
                        (selectedMint st) dest (wallet_publicKey env)) ;;
             sig <- sendAndConfirm env [ix] ;;
             log ("withdrawWithheld succeeded: " +++ sig) ;;
             ret Succeeded
       end)
      (fun e =>
         log ("withdrawWithheld failed: " +++ text e) ;;
         ret Caught)).

(** [onChange={(e) => setMintAmount(Number(e.target.value))}] *)
Definition changeMintAmount (env : Env) (value : string) : M Outcome :=
  setMintAmount (Number_ env value) ;;
  ret Succeeded.

(** The entry points: the buttons and the amount input, with the values of
    the text inputs they read. *)
Inductive Action : Type :=
| LoadProgram
| CreateTaxedToken
| CreateSoulboundToken
| CreatePayerAta
| MintToPayer
| RefreshPayerBalance
| CreateRecipientAta (recipientPubkey : string)
| TransferWithFee (recipientPubkey2 transferAmount : string)
| InspectRecipient (recipientPubkey3 : string)
| WithdrawWithheld (withdrawDest : string)
| ChangeMintAmount (value : string).

Definition is_some {A} (o : option A) : bool :=
  match o with Some _ => true | None => false end.

(** The [disabled] attribute of each button. *)
Definition disabled (env : Env) (st : State) (a : Action) : bool :=
  match a with
  | LoadProgram => false
  | CreateTaxedToken | CreateSoulboundToken => negb (wallet_connected env)
  | CreatePayerAta => negb (wallet_connected env) || negb (is_some (selectedMint st))
  | MintToPayer => negb (wallet_connected env) || negb (is_some (payerAta st))
  | RefreshPayerBalance => negb (is_some (payerAta st))
  | CreateRecipientAta _ | TransferWithFee _ _ | InspectRecipient _ | WithdrawWithheld _ =>
      negb (wallet_connected env) || negb (is_some (selectedMint st))
  | ChangeMintAmount _ => false
  end.

Definition handler (env : Env) (a : Action) : M Outcome :=
  match a with
  | LoadProgram =>
      p <- loadProgram env ;;
      ret (if is_some p then Succeeded else Guarded)
  | CreateTaxedToken => createTaxedToken env
  | CreateSoulboundToken => createSoulboundToken env
  | CreatePayerAta => createPayerAta env
  | MintToPayer => mintToPayer env None
  | RefreshPayerBalance => refreshPayerBalance env
  | CreateRecipientAta v => createRecipientAta env v
  | TransferWithFee v a => transferWithFee env v a
  | InspectRecipient v => inspectRecipient env v
  | WithdrawWithheld v => withdrawWithheld env v
  | ChangeMintAmount v => changeMintAmount env v
  end.

(** A session: each step is an entry point fired in the environment of its
    moment; the state carries over, also past an escaped exception.  A
    disabled button does not fire. *)
Definition click (env : Env) (a : Action) (st : State) : State :=
  if disabled env st a then st
  else match handler env a st with (_, st', _) => st' end.

Fixpoint session (script : list (Env * Action)) (st : State) : State :=
  match script with
  | [] => st
  | (env, a) :: rest => session rest (click env a st)
  end.

End ProgramControls.

(** ** The integration test's transfer *)

Module Tests.

(** [const fee = Math.ceil((transferAmount * transferFeeBps) / 10000)].
    The source computes in double precision.  The integer ceiling below is
    what that computes when both factors are not negative and their product
    is at most 2^53: the product is then exact, and the rounded quotient, not
    above 2^40, stays strictly between the two integers around a quotient
    that is not whole (it is at least 1/10000 away from both, the rounding
    error at most 2^-14).  Beyond that range the two can differ. *)
Definition fee (transferAmount transferFeeBps : Z) : Z :=
  Math_ceil_div (transferAmount * transferFeeBps) 10000.

(** The payload of the test's transfer: the computed fee is the last field. *)
Definition data (transferAmount decimals transferFeeBps : Z) : completion Buffer :=
  transferCheckedWithFeeData
    (Integral transferAmount) decimals (Integral (fee transferAmount transferFeeBps)).

Definition decimals : Z := 6.
Definition transferFeeBps : Z := 100.
Definition maximumFee : Z := 1000000.
Definition amountToMint : Z := 1000000.
Definition transferAmount : Z := 100000.

End Tests.

(** ** The specification's fee rule and ledger *)

(** Modelled from the spec: the fee the receiving program takes, which the
    client's sources do not contain, in the specification's words:
    [fee = min(maximumFee, ceil(amount * feeBps / 10000))]. *)
Definition spec_fee (amount feeBps maximumFee : Z) : Z :=
  Z.min maximumFee (Math_ceil_div (amount * feeBps) 10000).

Module Ledger.

(** Modelled from the spec: the receiving token program, which is not part
    of the client's sources.  A fee-bearing mint has its decimals, a rate in
    basis points and a maximum fee, fixed when it is created. *)
Record Mint : Type := { decimals : Z; feeBps : Z; maximumFee : Z }.


(** Modelled from the spec: the balances scenario A observes, the payer's,
    the recipient's and the fee withheld on the recipient's account. *)
Record Balances : Type :=
  { payer : Z; recipient : Z; recipient_withheld : Z }.



(** Modelled from the spec: a fee-aware transfer, as the program reads it
    off the payload.  The program recomputes the fee from the mint's
    configuration; a payload that is not the transfer-checked-with-fee
    layout, whose decimals differ from the mint's, whose supplied fee differs
    from the recomputed one, or whose amount exceeds the source balance fails
    the operation ([None]) and changes nothing.  Otherwise the source gives
    [amount], [fee] is withheld on the destination account and the
    destination's net received amount is [amount - fee]. *)
Definition transferWithFee (m : Mint) (data : Buffer) (b : Balances) : option Balances :=
  let amount := readBigUInt64LE data 2 in
  let supplied := readBigUInt64LE data 11 in
  let fee := spec_fee amount (feeBps m) (maximumFee m) in
  if (Nat.eqb (List.length data) 19
      && (nth 0 data 0 =? 26) && (nth 1 data 0 =? 1)
      && (nth 10 data 0 =? decimals m)
      && (supplied =? fee)
      && (amount <=? payer b))%bool
  then Some {| payer := payer b - amount;
               recipient := recipient b + (amount - fee);
               recipient_withheld := recipient_withheld b + fee |}
  else None.


End Ledger.

(** ** Reading traces *)

Definition is_network (c : Call) : bool :=
  match c with
  | rpc_call _ | getAccountInfo_call _ | sendTransaction_call _
  | confirmTransaction_call _ | getAccount_call _ => true
  | _ => false
  end.

Fixpoint network_calls (tr : list Event) : list Call :=
  match tr with
  | [] => []
  | Called c _ :: rest =>
      if is_network c then c :: network_calls rest else network_calls rest
  | _ :: rest => network_calls rest
  end.

Fixpoint calls (tr : list Event) : list Call :=
  match tr with
  | [] => []
  | Called c _ :: rest => c :: calls rest
  | _ :: rest => calls rest
  end.

Fixpoint instructions (tr : list Event) : list Instruction :=
  match tr with
  | [] => []
  | Called (instruction_call ix) _ :: rest => ix :: instructions rest
  | _ :: rest => instructions rest
  end.

Fixpoint transactions (tr : list Event) : list Transaction :=
  match tr with
  | [] => []
  | Called (sendTransaction_call tx) _ :: rest => tx :: transactions rest
  | _ :: rest => transactions rest
  end.

Fixpoint logged (tr : list Event) : list string :=
  match tr with
  | [] => []
  | Logged s :: rest => s :: logged rest
  | _ :: rest => logged rest
  end.

(** Every call of the trace returned, none threw. *)
Fixpoint all_ok (tr : list Event) : bool :=
  match tr with
  | [] => true
  | Called _ ok :: rest => ok && all_ok rest
  | _ :: rest => all_ok rest
  end.

Definition is_confirm (c : Call) : bool :=
  match c with confirmTransaction_call _ => true | _ => false end.

(** Each cell update of [rest] comes after calls that all returned, after the
    confirmation call of whatever was sent, and before no further call. *)
Fixpoint updates_last (seen rest : list Event) : bool :=
  match rest with
  | [] => true
  | Updated f :: rest' =>
      all_ok seen
      && (match transactions seen with
          | [] => true
          | _ :: _ => existsb is_confirm (calls seen)
          end)
      && (match calls rest' with [] => true | _ :: _ => false end)
      && updates_last (seen ++ [Updated f]) rest'
  | e :: rest' => updates_last (seen ++ [e]) rest'
  end.

(** The log after the [pushLog]s of a trace. *)
Definition replay (tr : list Event) (l : list string) : list string :=
  fold_left (fun acc s => pushLog s acc) (logged tr) l.


(** A run that stopped at a guard: it ended at the guard's [return], wrote
    the guard's message to the log, did nothing else and called nothing. *)
Definition fails_fast (run : completion Outcome * State * list Event)
  (st : State) (msg : string) : Prop :=
  run = (Normal Guarded, set_logs (pushLog msg (logs st)) st, [Logged msg]).

Definition is_byte (b : Z) : Prop := 0 <= b < 256.

(** The two selector bytes at the head of a payload. *)
Definition header (d : Buffer) : list Z := firstn 2 d.

(** ** A concrete environment *)

Module Demo.

Definition wallet : PublicKey := "Payer11111111111111111111111111111111111111".
Definition mint : PublicKey := "Mint111111111111111111111111111111111111111".
Definition recipient : PublicKey := "Rcpt111111111111111111111111111111111111111".

Fixpoint digits (acc : Z) (s : string) : number :=
  match s with
  | EmptyString => Integral acc
  | String c s' =>
      let n := nat_of_ascii c in
      if (Nat.leb 48 n && Nat.leb n 57)%bool
      then digits (10 * acc + Z.of_nat (n - 48)) s'
      else NaN
  end.

(** [Number] on strings of decimal digits; [NaN] elsewhere. *)
Definition Number_digits (s : string) : number :=
  match s with
  | EmptyString => Integral 0
  | _ => digits 0 s
  end.

(** A connected wallet on a ledger where every call succeeds, every
    confirmation reports [err = None], and the only account that exists is
    the one at [exists_at]. *)
Definition env (exists_at : option PublicKey) : Env :=
  {| PROGRAM_ID := "Prog111111111111111111111111111111111111111";
     wallet_publicKey := Some wallet;
     wallet_connected := true;
     Keypair_generate := mint;
     Number_ := Number_digits;
     new_PublicKey := fun v => Normal v;
     getAssociatedTokenAddress := fun m o => Normal ("ata(" +++ m +++ "," +++ o +++ ")");
     rpc := fun _ => Normal "sig-rpc";
     getAccountInfo := fun a =>
       Normal match exists_at with
              | Some b => if String.eqb a b then Some [] else None
              | None => None
              end;
     sendTransaction := fun _ => Normal "sig-tx";
     confirmTransaction := fun _ => Normal {| err := None |};
     getAccount := fun _ => Normal {| amount := 0; withheldAmount := None |} |}.

Definition payer_ata : PublicKey := "ata(" +++ mint +++ "," +++ wallet +++ ")".

(** The same, with no wallet connected. *)
Definition env_disconnected : Env :=
  {| PROGRAM_ID := PROGRAM_ID (env None);
     wallet_publicKey := None;
     wallet_connected := false;
     Keypair_generate := mint;
     Number_ := Number_digits;
     new_PublicKey := new_PublicKey (env None);
     getAssociatedTokenAddress := getAssociatedTokenAddress (env None);
     rpc := rpc (env None);
     getAccountInfo := getAccountInfo (env None);
     sendTransaction := fun _ => Throw (mkError "Wallet not connected" "WalletNotConnectedError");
     confirmTransaction := confirmTransaction (env None);
     getAccount := getAccount (env None) |}.

(** The same as [env None], with a transport whose account query fails. *)
Definition env_transport_down : Env :=
  {| PROGRAM_ID := PROGRAM_ID (env None);
     wallet_publicKey := Some wallet;
     wallet_connected := true;
     Keypair_generate := mint;
     Number_ := Number_digits;
     new_PublicKey := new_PublicKey (env None);
     getAssociatedTokenAddress := getAssociatedTokenAddress (env None);
     rpc := rpc (env None);
     getAccountInfo := fun _ => Throw (mkError "failed to get info about account" "Error");
     sendTransaction := sendTransaction (env None);
     confirmTransaction := confirmTransaction (env None);
     getAccount := getAccount (env None) |}.

(** The same as [env None], with a ledger on which the submitted
    transaction fails: the confirmation resolves with a status whose [err]
    is set. *)
Definition env_failed_status : Env :=
  {| PROGRAM_ID := PROGRAM_ID (env None);
     wallet_publicKey := Some wallet;
     wallet_connected := true;
     Keypair_generate := mint;
     Number_ := Number_digits;
     new_PublicKey := new_PublicKey (env None);
     getAssociatedTokenAddress := getAssociatedTokenAddress (env None);
     rpc := rpc (env None);
     getAccountInfo := getAccountInfo (env None);
     sendTransaction := sendTransaction (env None);
     confirmTransaction := fun _ => Normal {| err := Some "InstructionError" |};
     getAccount := getAccount (env None) |}.

Definition with_mint : State := set_selectedMint (Some mint) initial.

Definition with_ata : State := set_payerAta (Some payer_ata) with_mint.

End Demo.

(** ** The integration test's transfer on a soulbound mint *)

(** [Buffer.alloc(n, fill)] : [n] bytes, each [fill] modulo 256. *)
Definition Buffer_alloc_fill (n : nat) (fill : Z) : Buffer :=
  repeat (Z.land fill 255) n.

Module SoulboundTest.

(** [const feeBuf = Buffer.alloc(8); feeBuf.writeBigUInt64LE(BigInt(0))] *)
Definition feeBuf : completion Buffer :=
  let buf := Buffer_alloc 8 in
  match BigInt (Integral 0) with
  | Normal v => writeBigUInt64LE buf v 0
  | Throw e => Throw e
  end.

(** The payload of the soulbound test, for the amount it writes:
<<
    const data2 = Buffer.concat([
      Buffer.from([26, 1]),
      Buffer.alloc(8, 0), // amount 0 here will be overwritten below
      Buffer.from([6]),
      feeBuf,
    ]);
    // replace amount with desired value (100_000)
    data2.writeBigUInt64LE(BigInt(amount), 1);
>> *)
Definition data2_of (amount : number) : completion Buffer :=
  match feeBuf with
  | Throw e => Throw e
  | Normal f =>
      let data2 :=
        Buffer_concat [Buffer_from [26; 1]; Buffer_alloc_fill 8 0; Buffer_from [6]; f] in
      match BigInt amount with
      | Normal v => writeBigUInt64LE data2 v 1
      | Throw e => Throw e
      end
  end.

(** The test writes [BigInt(100_000)]. *)
Definition data2 : completion Buffer := data2_of (Integral 100000).

End SoulboundTest.

(** ** Reading states and environments *)

(** The wallet reports itself connected exactly when it has a public key. *)
Definition wallet_consistent (env : Env) : Prop :=
  wallet_connected env = ProgramControls.is_some (wallet_publicKey env).

(** A payer account is recorded only under a selected mint. *)
Definition ata_under_mint (st : State) : Prop :=
  payerAta st <> None -> selectedMint st <> None.

(** A number [u64ToBufferLE] accepts. *)
Definition is_u64 (n : number) : bool :=
  match n with
  | Integral v => (0 <=? v) && (v <? 2 ^ 64)
  | _ => false
  end.

(** The entry points that only read: they submit nothing. *)
Definition read_only (a : ProgramControls.Action) : bool :=
  match a with
  | ProgramControls.LoadProgram | ProgramControls.RefreshPayerBalance
  | ProgramControls.InspectRecipient _ | ProgramControls.ChangeMintAmount _ => true
  | _ => false
  end.

Fixpoint rpc_calls (tr : list Event) : list Method :=
  match tr with
  | [] => []
  | Called (rpc_call m) _ :: rest => m :: rpc_calls rest
  | _ :: rest => rpc_calls rest
  end.

(** * Properties *)

(** ** The codec *)

Section Codec.

Lemma byte_at_div_mod (v : Z) (i : nat) :
  byte_at v i = (v / 256 ^ Z.of_nat i) mod 256.
Proof.
  unfold byte_at.
  rewrite Z.shiftr_div_pow2 by lia.
  change 255 with (Z.ones 8).
  rewrite Z.land_ones by lia.
  rewrite Z.pow_mul_r by lia.
  reflexivity.
Qed.

Lemma byte_at_is_byte (v : Z) (i : nat) : is_byte (byte_at v i).
Proof.
  unfold is_byte. rewrite byte_at_div_mod.
  apply Z.mod_pos_bound. lia.
Qed.

Lemma le_value_bytes (v : Z) (n k : nat) :
  le_value (map (byte_at v) (seq k n))
  = (v / 256 ^ Z.of_nat k) mod 256 ^ Z.of_nat n.
Proof.
  revert k. induction n as [|n IH]; intro k.
  - simpl. now rewrite Z.mod_1_r.
  - cbn [seq map le_value]. rewrite IH, byte_at_div_mod.
    replace (256 ^ Z.of_nat (S k)) with (256 ^ Z.of_nat k * 256)
      by (rewrite Nat2Z.inj_succ, Z.pow_succ_r by lia; ring).
    rewrite <- Z.div_div by lia.
    replace (256 ^ Z.of_nat (S n)) with (256 * 256 ^ Z.of_nat n)
      by (rewrite Nat2Z.inj_succ, Z.pow_succ_r by lia; ring).
    rewrite Z.rem_mul_r by lia.
    reflexivity.
Qed.

Lemma u64ToBufferLE_in_range (v : Z) :
  0 <= v < 2 ^ 64 ->
  u64ToBufferLE (Integral v) = Normal (map (byte_at v) (seq 0 8)).
Proof.
  intros [Hlo Hhi]. unfold u64ToBufferLE, writeBigUInt64LE. cbn [BigInt].
  apply Z.leb_le in Hlo. apply Z.ltb_lt in Hhi. rewrite Hlo, Hhi.
  reflexivity.
Qed.

Lemma u64ToBufferLE_value (v : Z) :
  0 <= v < 2 ^ 64 -> le_value (map (byte_at v) (seq 0 8)) = v.
Proof.
  intros H. rewrite le_value_bytes.
  change (256 ^ Z.of_nat 0) with 1. rewrite Z.div_1_r.
  change (256 ^ Z.of_nat 8) with (2 ^ 64).
  apply Z.mod_small. exact H.
Qed.

Lemma u64ToBufferLE_bytes (v : Z) :
  Forall is_byte (map (byte_at v) (seq 0 8)).
Proof.
  apply Forall_forall. intros b Hb.
  apply in_map_iff in Hb. destruct Hb as [i [<- _]].
  apply byte_at_is_byte.
Qed.

(** Outside 64 unsigned bits, and on a number that is not integral, the
    encoder throws: nothing is encoded. *)
Lemma u64ToBufferLE_throws (n : number) :
  (forall v, n = Integral v -> ~ 0 <= v < 2 ^ 64) ->
  exists e, u64ToBufferLE n = Throw e.
Proof.
  intros H. destruct n as [| neg | v |]; try (eexists; reflexivity).
  unfold u64ToBufferLE, writeBigUInt64LE. cbn [BigInt].
  destruct ((0 <=? v) && (v <? 2 ^ 64))%bool eqn:E.
  - exfalso. apply (H v eq_refl).
    apply andb_true_iff in E. destruct E as [E1 E2].
    apply Z.leb_le in E1. apply Z.ltb_lt in E2. lia.
  - eexists; reflexivity.
Qed.

End Codec.

(** C2. For amount and fee within 64 unsigned bits and decimals within 8,
    the payload is the two selector bytes 26 and 1, the amount as eight
    little-endian bytes, the decimals byte and the fee as eight little-endian
    bytes; the header of the payload for amount 100000, decimals 6 and fee
    1000 is [26; 1]. *)
Theorem transfer_payload_layout (amount decimals fee : Z) :
  0 <= amount < 2 ^ 64 ->
  0 <= decimals < 256 ->
  0 <= fee < 2 ^ 64 ->
  (exists a f : Buffer,
      transferCheckedWithFeeData (Integral amount) decimals (Integral fee)
      = Normal ([26; 1] ++ a ++ [decimals] ++ f)
      /\ List.length a = 8%nat /\ List.length f = 8%nat
      /\ Forall is_byte a /\ Forall is_byte f
      /\ le_value a = amount /\ le_value f = fee
      /\ (forall d,
             transferCheckedWithFeeData (Integral amount) decimals (Integral fee) = Normal d ->
             List.length d = 19%nat /\ header d = [26; 1]
             /\ readBigUInt64LE d 2 = amount
             /\ nth 10 d 0 = decimals
             /\ readBigUInt64LE d 11 = fee))
  /\ (exists d,
         transferCheckedWithFeeData (Integral 100000) 6 (Integral 1000) = Normal d
         /\ header d = [26; 1]).
Proof.
  intros Ha Hd Hf. split.
  - exists (map (byte_at amount) (seq 0 8)), (map (byte_at fee) (seq 0 8)).
    assert (E : transferCheckedWithFeeData (Integral amount) decimals (Integral fee)
                = Normal ([26; 1] ++ map (byte_at amount) (seq 0 8)
                            ++ [decimals] ++ map (byte_at fee) (seq 0 8))).
    { unfold transferCheckedWithFeeData.
      rewrite (u64ToBufferLE_in_range amount Ha), (u64ToBufferLE_in_range fee Hf).
      assert (D : Z.land decimals 255 = decimals).
      { change 255 with (Z.ones 8). rewrite Z.land_ones by lia.
        apply Z.mod_small. change (2 ^ 8) with 256. lia. }
      unfold Buffer_concat, Buffer_from. cbn [map List.concat].
      rewrite D, app_nil_r. reflexivity. }
    pose proof (u64ToBufferLE_value amount Ha) as Va.
    pose proof (u64ToBufferLE_value fee Hf) as Vf.
    split; [exact E|].
    split; [reflexivity|]. split; [reflexivity|].
    split; [apply u64ToBufferLE_bytes|]. split; [apply u64ToBufferLE_bytes|].
    split; [exact Va|]. split; [exact Vf|].
    intros d0 Hd'. rewrite E in Hd'. injection Hd' as <-.
    split; [reflexivity|]. split; [reflexivity|].
    split; [exact Va|]. split; [reflexivity|exact Vf].
  - eexists. split; reflexivity.
Qed.

Lemma transfer_payload_layout_witness :
  exists d,
    transferCheckedWithFeeData (Integral 100000) 6 (Integral 1000) = Normal d
    /\ header d = [26; 1].
Proof.
  apply (transfer_payload_layout 100000 6 1000); lia.
Defined.

(** ** The log *)

Import ProgramControls.

Lemma pushLog_length (s : string) (l : list string) :
  (List.length (pushLog s l) <= 20)%nat.
Proof.
  unfold pushLog. apply firstn_le_length.
Qed.

Lemma replay_length (tr : list Event) (l : list string) :
  (List.length l <= 20)%nat -> (List.length (replay tr l) <= 20)%nat.
Proof.
  unfold replay. generalize (logged tr) as msgs. intros msgs. revert l.
  induction msgs as [|m msgs IH]; intros l Hl; cbn [fold_left].
  - exact Hl.
  - apply IH. apply pushLog_length.
Qed.

(** Symbolic execution of a handler: unfold the monad, then split on the
    innermost scrutinee until no [match] is left. *)
Ltac simp :=
  cbn -[pushLog trim text Z_toString String.append data not_number not_string].

Ltac exec_step :=
  match goal with
  | |- context [match ?x with _ => _ end] =>
      lazymatch x with
      | context [match _ with _ => _ end] => fail
      | _ => destruct x eqn:?
      end
  end.

Ltac exec := simp; repeat (exec_step; simp).

Ltac use_eqs :=
  repeat match goal with
         | H : ?x = _ |- context [?x] => rewrite H; simp
         end.

Ltac unfold_handlers :=
  unfold handler, createTaxedToken, createSoulboundToken, createPayerAta,
    mintToPayer, refreshPayerBalance, createRecipientAta, transferWithFee,
    inspectRecipient, withdrawWithheld, changeMintAmount, loadProgram,
    sendAndConfirm, getAssociatedTokenAddress_, instruction,
    captured, try_catch, bind, ret, call, lift, log,
    setSelectedMint, setPayerAta, setPayerBalance, setMintAmount.

(** No handler reads the log: run from a state with another log, a handler
    ends the same way, makes the same calls and updates, and leaves the
    same cells; only the log differs, by the same writes. *)
Lemma handler_log_independent (env : Env) (a : Action) (st : State) (l' : list string) :
  handler env a (set_logs l' st)
  = (fst (fst (handler env a st)),
     set_logs (replay (snd (handler env a st)) l') (snd (fst (handler env a st))),
     snd (handler env a st)).
Proof.
  destruct a; unfold_handlers; unfold replay; exec; reflexivity.
Qed.

Lemma set_logs_same (st : State) : set_logs (logs st) st = st.
Proof. destruct st; reflexivity. Qed.

Lemma handler_logs (env : Env) (a : Action) (st : State) :
  logs (snd (fst (handler env a st))) = replay (snd (handler env a st)) (logs st).
Proof.
  pose proof (handler_log_independent env a st (logs st)) as H.
  rewrite set_logs_same in H.
  rewrite H at 1. reflexivity.
Qed.

Lemma click_log_bound (env : Env) (a : Action) (st : State) :
  (List.length (logs st) <= 20)%nat ->
  (List.length (logs (click env a st)) <= 20)%nat.
Proof.
  intros H. unfold click. destruct (disabled env st a); [exact H|].
  pose proof (handler_logs env a st) as E.
  destruct (handler env a st) as [[r st'] tr]. cbn [fst snd] in E.
  rewrite E. apply replay_length. exact H.
Qed.

Lemma session_log_bound (script : list (Env * Action)) (st : State) :
  (List.length (logs st) <= 20)%nat ->
  (List.length (logs (session script st)) <= 20)%nat.
Proof.
  revert st. induction script as [|[env a] rest IH]; intros st H; cbn [session].
  - exact H.
  - apply IH. apply click_log_bound. exact H.
Qed.

Lemma pushLog_firstn (s : string) (l : list string) :
  pushLog s (firstn 20 l) = firstn 20 (s :: l).
Proof.
  unfold pushLog.
  change 20%nat with (S 19). rewrite !firstn_cons. f_equal.
  rewrite firstn_firstn. reflexivity.
Qed.

Lemma replay_firstn (msgs : list string) (l : list string) :
  fold_left (fun acc s => pushLog s acc) msgs (firstn 20 l)
  = firstn 20 (rev msgs ++ l).
Proof.
  revert l. induction msgs as [|m msgs IH]; intros l; cbn [fold_left rev].
  - reflexivity.
  - rewrite pushLog_firstn, IH, <- app_assoc. reflexivity.
Qed.

Lemma handler_logs_bounded (env : Env) (a : Action) (st : State) :
  (List.length (logs st) <= 20)%nat ->
  logs (snd (fst (handler env a st)))
  = firstn 20 (rev (logged (snd (handler env a st))) ++ logs st).
Proof.
  intros H. rewrite handler_logs. unfold replay.
  rewrite <- (firstn_all2 (n := 20) (logs st) H) at 1.
  apply replay_firstn.
Qed.

(** C7. The log is the most recent 20 entries.  A write puts the new entry
    first and keeps what follows it in order up to 20 entries, dropping only
    the entries behind those, the oldest, and only when there are more than
    20; so the log holds at most 20 entries after every write, whatever it
    held before, and throughout every session from the initial state, where
    after any run it is the run's messages, newest first, before the earlier
    log, cut to 20.  A write cannot fail and touches no other cell; and no
    entry point reads the log: neither whether a button is enabled nor what
    a handler does depends on it. *)
Theorem log_bounded_and_observational :
  (forall s l, (List.length (pushLog s l) <= 20)%nat)
  /\ (forall script, (List.length (logs (session script initial)) <= 20)%nat)
  /\ (forall s st,
         log s st = (Normal tt, set_logs (pushLog s (logs st)) st, [Logged s])
         /\ tracked (set_logs (pushLog s (logs st)) st) = tracked st)
  /\ (forall env a st l',
         disabled env (set_logs l' st) a = disabled env st a
         /\ handler env a (set_logs l' st)
            = (fst (fst (handler env a st)),
               set_logs (replay (snd (handler env a st)) l') (snd (fst (handler env a st))),
               snd (handler env a st)))
  /\ (forall s l,
         hd_error (pushLog s l) = Some s
         /\ (exists dropped, s :: l = pushLog s l ++ dropped)
         /\ List.length (pushLog s l) = Nat.min 20 (S (List.length l)))
  /\ (forall script env a,
         logs (snd (fst (handler env a (session script initial))))
         = firstn 20 (rev (logged (snd (handler env a (session script initial))))
                        ++ logs (session script initial))).
Proof.
  split; [exact pushLog_length|].
  split; [intros script; apply session_log_bound; cbn; lia|].
  split; [intros s st; split; reflexivity|].
  split.
  { intros env a st l'. split.
    - destruct a; reflexivity.
    - apply handler_log_independent. }
  split.
  - intros s l. split; [reflexivity|]. split.
    + exists (skipn 20 (s :: l)). unfold pushLog. symmetry. apply firstn_skipn.
    + unfold pushLog. rewrite length_firstn. reflexivity.
  - intros script env a. apply handler_logs_bounded.
    apply session_log_bound. cbn. lia.
Qed.

(** C9. A log write puts the new entry first, keeps the first 19 of the
    earlier entries in their order behind it, and drops the rest, which are
    the oldest. *)
Theorem pushLog_newest_first (s : string) (l : list string) :
  pushLog s l = s :: firstn 19 l
  /\ hd_error (pushLog s l) = Some s
  /\ l = tl (pushLog s l) ++ skipn 19 l
  /\ List.length (skipn 19 l) = (List.length l - 19)%nat.
Proof.
  assert (E : pushLog s l = s :: firstn 19 l) by reflexivity.
  rewrite E. cbn [hd_error tl].
  split; [reflexivity|]. split; [reflexivity|].
  split; [symmetry; apply firstn_skipn | apply length_skipn].
Qed.

(** ** The fee *)

Lemma Math_ceil_div_le (a b n : Z) : 0 < b -> a <= n * b -> Math_ceil_div a b <= n.
Proof.
  intros Hb H. unfold Math_ceil_div.
  assert (- n <= (- a) / b); [|lia].
  apply Z.div_le_lower_bound; [exact Hb|]. lia.
Qed.

Lemma spec_fee_le_amount (amount feeBps maximumFee : Z) :
  0 <= amount -> feeBps <= 10000 -> spec_fee amount feeBps maximumFee <= amount.
Proof.
  intros Ha Hb. unfold spec_fee.
  etransitivity; [apply Z.le_min_r|].
  apply Math_ceil_div_le; [lia|]. nia.
Qed.

(** The payload of the transfer handler has a zero fee field. *)
Lemma data_fee_field (amt : number) (d : Buffer) :
  data amt = Normal d ->
  exists v, amt = Integral v /\ 0 <= v < 2 ^ 64
            /\ List.length d = 19%nat /\ header d = [26; 1]
            /\ readBigUInt64LE d 2 = v
            /\ nth 10 d 0 = 6
            /\ readBigUInt64LE d 11 = 0.
Proof.
  unfold data, transferCheckedWithFeeData. intros H.
  destruct amt as [| neg | v |]; try discriminate H.
  exists v.
  destruct (Z_le_dec 0 v) as [Hlo|Hlo]; [destruct (Z_lt_dec v (2 ^ 64)) as [Hhi|Hhi]|].
  - rewrite (u64ToBufferLE_in_range v (conj Hlo Hhi)) in H.
    cbn [u64ToBufferLE BigInt] in H.
    injection H as <-.
    split; [reflexivity|]. split; [lia|].
    split; [reflexivity|]. split; [reflexivity|].
    split; [apply (u64ToBufferLE_value v); lia|].
    split; reflexivity.
  - exfalso. destruct (u64ToBufferLE_throws (Integral v)) as [e E].
    + intros v' [= <-]. lia.
    + rewrite E in H. discriminate H.
  - exfalso. destruct (u64ToBufferLE_throws (Integral v)) as [e E].
    + intros v' [= <-]. lia.
    + rewrite E in H. discriminate H.
Qed.

(** Every transaction the transfer handler sends is one raw instruction
    whose payload is [data] of the parsed amount. *)
Lemma transferWithFee_transactions (env : Env) (v a : string) (st : State) (tx : Transaction) :
  In tx (transactions (snd (transferWithFee env v a st))) ->
  exists keys d,
    tx = [TransactionInstruction keys d]
    /\ data (Number_ env (or_string a "0")) = Normal d.
Proof.
  unfold_handlers. exec; cbn [In]; intros H;
    repeat match goal with
           | H : _ \/ _ |- _ => destruct H as [H|H]
           | H : False |- _ => destruct H
           end; subst tx; eauto.
Qed.

(** C1, as amended.  The transfer handler computes no fee: every transaction
    it submits carries one instruction whose payload ends in an eight-byte fee
    field that reads 0, after the selectors 26 and 1, the parsed amount and
    the decimals 6.  The fee of the specification,
    [min(maximumFee, ceil(amount * feeBps / 10000))], is at most the amount
    whenever the amount is not negative and the rate is at most 10000 basis
    points. *)
Theorem transfer_fee_field_is_zero
  (env : Env) (v a : string) (st : State) (tx : Transaction)
  (amount feeBps maximumFee : Z) :
  In tx (transactions (snd (transferWithFee env v a st))) ->
  0 <= amount ->
  feeBps <= 10000 ->
  (exists keys d amt,
      tx = [TransactionInstruction keys d]
      /\ Number_ env (or_string a "0") = Integral amt
      /\ data (Integral amt) = Normal d
      /\ List.length d = 19%nat
      /\ header d = [26; 1]
      /\ readBigUInt64LE d 2 = amt
      /\ nth 10 d 0 = 6
      /\ readBigUInt64LE d 11 = 0)
  /\ spec_fee amount feeBps maximumFee <= amount.
Proof.
  intros Htx Ha Hb. split; [|apply spec_fee_le_amount; assumption].
  destruct (transferWithFee_transactions env v a st tx Htx) as [keys [d [-> Hd]]].
  destruct (data_fee_field _ d Hd) as [amt [E [_ [Hl [Hh [Hv [Hdec Hfee]]]]]]].
  exists keys, d, amt. rewrite E in Hd. repeat split; assumption.
Qed.

Lemma transfer_fee_field_is_zero_witness :
  In (hd [] (transactions
               (snd (transferWithFee (Demo.env None) Demo.recipient "100000" Demo.with_mint))))
     (transactions
        (snd (transferWithFee (Demo.env None) Demo.recipient "100000" Demo.with_mint)))
  /\ (exists keys d amt,
         hd [] (transactions
                  (snd (transferWithFee (Demo.env None) Demo.recipient "100000" Demo.with_mint)))
         = [TransactionInstruction keys d]
         /\ Number_ (Demo.env None) (or_string "100000" "0") = Integral amt
         /\ data (Integral amt) = Normal d
         /\ List.length d = 19%nat
         /\ header d = [26; 1]
         /\ readBigUInt64LE d 2 = amt
         /\ nth 10 d 0 = 6
         /\ readBigUInt64LE d 11 = 0)
  /\ spec_fee 100000 100 1000000 <= 100000.
Proof.
  split; [vm_compute; left; reflexivity|].
  apply (transfer_fee_field_is_zero
           (Demo.env None) Demo.recipient "100000" Demo.with_mint _ 100000 100 1000000);
    [vm_compute; left; reflexivity | lia | lia].
Defined.

(** C1, as stated, fails: with the wallet connected and a mint selected, a
    transfer of 100000 succeeds in an environment where every call succeeds,
    and the instruction it submits carries the amount 100000 and the fee 0,
    where the fee of the specification for the mint the client creates
    (100 basis points, maximum 1000000) is 1000. *)
Lemma transfer_fee_field_counterexample :
  exists keys d,
    fst (fst (transferWithFee (Demo.env None) Demo.recipient "100000" Demo.with_mint))
    = Normal Succeeded
    /\ transactions
         (snd (transferWithFee (Demo.env None) Demo.recipient "100000" Demo.with_mint))
       = [[TransactionInstruction keys d]]
    /\ readBigUInt64LE d 2 = 100000
    /\ readBigUInt64LE d 11 = 0
    /\ spec_fee 100000 100 1000000 = 1000
    /\ readBigUInt64LE d 11 <> spec_fee 100000 100 1000000.
Proof.
  eexists. eexists.
  split; [vm_compute; reflexivity|].
  split; [vm_compute; reflexivity|].
  split; [vm_compute; reflexivity|].
  split; [vm_compute; reflexivity|].
  split; [vm_compute; reflexivity|].
  vm_compute. discriminate.
Qed.



(** ** Preconditions *)

(** C10. A transfer request whose recipient field is empty (or blank), or
    whose amount field is empty or is read by [Number] as [NaN] or as 0,
    stops at the input check: the handler writes "Provide recipient and
    amount" to the log and returns, having made no call at all: no key
    parsed, no address derived, no payload encoded, nothing built or sent. *)
Theorem transfer_rejects_missing_input (env : Env) (st : State) (v a : string) :
  Number_ env "0" = Integral 0 ->
  trim v = "" \/ a = "" \/ Number_ env a = NaN \/ Number_ env a = Integral 0 ->
  fails_fast (transferWithFee env v a st) st "Provide recipient and amount"
  /\ calls (snd (transferWithFee env v a st)) = []
  /\ tracked (snd (fst (transferWithFee env v a st))) = tracked st.
Proof.
  intros H0 H.
  assert (E : (not_string (trim v) || not_number (Number_ env (or_string a "0")))%bool = true).
  { destruct H as [H | [H | [H | H]]].
    - rewrite H. reflexivity.
    - rewrite H. cbn. rewrite H0. apply orb_true_r.
    - unfold or_string. destruct (not_string a); [rewrite H0 | rewrite H]; apply orb_true_r.
    - unfold or_string. destruct (not_string a); [rewrite H0 | rewrite H]; apply orb_true_r. }
  unfold fails_fast. unfold_handlers. simp. rewrite E. simp.
  repeat split.
Qed.

Lemma transfer_rejects_missing_input_witness :
  Number_ (Demo.env None) "0" = Integral 0
  /\ Number_ (Demo.env None) "abc" = NaN
  /\ fails_fast (transferWithFee (Demo.env None) Demo.recipient "abc" Demo.with_mint)
       Demo.with_mint "Provide recipient and amount"
  /\ calls (snd (transferWithFee (Demo.env None) Demo.recipient "abc" Demo.with_mint)) = []
  /\ tracked (snd (fst (transferWithFee (Demo.env None) Demo.recipient "abc" Demo.with_mint)))
     = tracked Demo.with_mint.
Proof.
  split; [reflexivity|]. split; [reflexivity|].
  apply (transfer_rejects_missing_input (Demo.env None) Demo.with_mint Demo.recipient "abc");
    [reflexivity | right; right; left; reflexivity].
Defined.

(** C3, as amended.  The guards the handlers have stop the action before
    anything is built or called: without a wallet key, [loadProgram], both
    token creations, [createPayerAta] and [mintToPayer] log "Wallet not
    connected"; without a selected mint, [createPayerAta] and the withdrawal
    log "No mint selected"; without a payer account, [refreshPayerBalance]
    logs "No payer ATA"; [mintToPayer] logs the one message "Missing mint or
    payer ATA" for a missing mint and for a missing payer account.  The four
    messages differ from one another. *)
Theorem guards_fail_fast (env : Env) (st : State) :
  (wallet_publicKey env = None ->
   fails_fast (handler env LoadProgram st) st "Wallet not connected"
   /\ fails_fast (createTaxedToken env st) st "Wallet not connected"
   /\ fails_fast (createSoulboundToken env st) st "Wallet not connected"
   /\ (selectedMint st <> None ->
       fails_fast (createPayerAta env st) st "Wallet not connected")
   /\ (selectedMint st <> None -> payerAta st <> None ->
       forall amount, fails_fast (mintToPayer env amount st) st "Wallet not connected"))
  /\ (selectedMint st = None ->
      fails_fast (createPayerAta env st) st "No mint selected"
      /\ (forall v, fails_fast (withdrawWithheld env v st) st "No mint selected")
      /\ (forall amount,
             fails_fast (mintToPayer env amount st) st "Missing mint or payer ATA"))
  /\ (payerAta st = None ->
      (forall amount,
          fails_fast (mintToPayer env amount st) st "Missing mint or payer ATA")
      /\ fails_fast (refreshPayerBalance env st) st "No payer ATA")
  /\ NoDup [ "Wallet not connected"; "No mint selected";
             "Missing mint or payer ATA"; "No payer ATA" ].
Proof.
  unfold fails_fast.
  split; [intros Hw | split; [intros Hm | split; [intros Hp|]]].
  - split; [unfold_handlers; simp; rewrite Hw; reflexivity|].
    split; [unfold_handlers; simp; rewrite Hw; reflexivity|].
    split; [unfold_handlers; simp; rewrite Hw; reflexivity|].
    split.
    + intros Hm. unfold_handlers. simp.
      destruct (selectedMint st); [|contradiction]. rewrite Hw. reflexivity.
    + intros Hm Hp amount. unfold_handlers. simp.
      destruct (selectedMint st); [|contradiction].
      destruct (payerAta st); [|contradiction]. rewrite Hw. reflexivity.
  - split; [unfold_handlers; simp; rewrite Hm; reflexivity|].
    split; intros x; unfold_handlers; simp; rewrite Hm; reflexivity.
  - split.
    + intros amount. unfold_handlers. simp. rewrite Hp.
      destruct (selectedMint st); reflexivity.
    + unfold_handlers. simp. rewrite Hp. reflexivity.
  - repeat constructor; cbn [In]; intuition discriminate.
Qed.

Lemma guards_fail_fast_witness :
  wallet_publicKey Demo.env_disconnected = None
  /\ selectedMint initial = None
  /\ payerAta initial = None
  /\ fails_fast (createTaxedToken Demo.env_disconnected initial) initial
       "Wallet not connected"
  /\ fails_fast (createPayerAta Demo.env_disconnected initial) initial
       "No mint selected"
  /\ fails_fast (refreshPayerBalance Demo.env_disconnected initial) initial
       "No payer ATA".
Proof.
  pose proof (guards_fail_fast Demo.env_disconnected initial) as [Hw [Hm [Hp _]]].
  split; [reflexivity|]. split; [reflexivity|]. split; [reflexivity|].
  split; [apply (Hw eq_refl)|].
  split; [apply (Hm eq_refl) | apply (Hp eq_refl)].
Defined.

(** C3, as stated, fails twice.  With the wallet connected and a mint
    selected but no payer account recorded (and none on the ledger, for payer
    or recipient), the transfer button is enabled and its handler checks no
    account: it builds the instruction and sends it.  And [mintToPayer]
    answers a missing mint and a missing payer account with the same log
    line. *)
Lemma precondition_checks_counterexample :
  (payerAta Demo.with_mint = None
   /\ getAccountInfo (Demo.env None) Demo.payer_ata = Normal None
   /\ disabled (Demo.env None) Demo.with_mint (TransferWithFee Demo.recipient "100000") = false
   /\ exists ix,
       instructions
         (snd (handler (Demo.env None) (TransferWithFee Demo.recipient "100000")
                 Demo.with_mint)) = [ix]
       /\ network_calls
            (snd (handler (Demo.env None) (TransferWithFee Demo.recipient "100000")
                    Demo.with_mint))
          = [sendTransaction_call [ix]; confirmTransaction_call "sig-tx"])
  /\ (selectedMint (set_payerAta (Some Demo.payer_ata) initial) = None
      /\ payerAta (set_payerAta (Some Demo.payer_ata) initial) <> None
      /\ selectedMint Demo.with_mint <> None
      /\ payerAta Demo.with_mint = None
      /\ logged (snd (mintToPayer (Demo.env None) None
                        (set_payerAta (Some Demo.payer_ata) initial)))
         = [ "Missing mint or payer ATA" ]
      /\ logged (snd (mintToPayer (Demo.env None) None Demo.with_mint))
         = [ "Missing mint or payer ATA" ]).
Proof.
  split.
  - split; [reflexivity|]. split; [reflexivity|]. split; [reflexivity|].
    eexists. split; vm_compute; reflexivity.
  - split; [reflexivity|]. split; [discriminate|]. split; [discriminate|].
    split; [reflexivity|]. split; vm_compute; reflexivity.
Qed.

(** ** State updates *)






(** The status a confirmation resolves to is not read: when the ledger
    reports the submitted transaction as failed without the call throwing,
    [createPayerAta] still logs the creation and records the account. *)
Lemma confirmation_status_not_read :
  confirmTransaction Demo.env_failed_status "sig-tx"
  = Normal {| err := Some "InstructionError" |}
  /\ fst (fst (createPayerAta Demo.env_failed_status Demo.with_mint)) = Normal Succeeded
  /\ payerAta (snd (fst (createPayerAta Demo.env_failed_status Demo.with_mint)))
     = Some Demo.payer_ata.
Proof.
  split; [reflexivity|]. split; vm_compute; reflexivity.
Qed.

(** The ordering check is not idle: it refuses a cell updated before the
    call it depends on, after a call that threw, and after a send that was
    not followed by its confirmation. *)
Example updates_last_refuses :
  updates_last [] [Updated payerAta_field; Called (getAccountInfo_call "a") true] = false
  /\ updates_last [] [Called (getAccountInfo_call "a") false; Updated payerAta_field] = false
  /\ updates_last [] [Called (sendTransaction_call []) true; Updated payerAta_field] = false.
Proof. repeat split. Qed.

(** ** Account creation *)

(** C5. When the associated account of (mint, owner) exists already, asking
    for its creation builds no instruction and sends nothing, ends in
    success and, for the payer, records the address; when it does not exist,
    exactly one creation instruction is built, for that mint, owner and
    address, and it is sent as the one instruction of one transaction.  This
    holds for the payer's account and for a recipient's. *)
Theorem create_account_idempotent
  (env : Env) (st : State) (mint owner ata : PublicKey)
  (v : string) (pk rata : PublicKey) :
  selectedMint st = Some mint ->
  wallet_publicKey env = Some owner ->
  getAssociatedTokenAddress env mint owner = Normal ata ->
  not_string (trim v) = false ->
  new_PublicKey env (trim v) = Normal pk ->
  getAssociatedTokenAddress env mint pk = Normal rata ->
  (forall info, getAccountInfo env ata = Normal (Some info) ->
     fst (fst (createPayerAta env st)) = Normal Succeeded
     /\ instructions (snd (createPayerAta env st)) = []
     /\ transactions (snd (createPayerAta env st)) = []
     /\ payerAta (snd (fst (createPayerAta env st))) = Some ata
     /\ logs (snd (fst (createPayerAta env st)))
        = pushLog ("Payer ATA already exists: " +++ ata) (logs st))
  /\ (getAccountInfo env ata = Normal None ->
      instructions (snd (createPayerAta env st))
      = [createAssociatedTokenAccountInstruction (Some owner) ata (Some owner) (Some mint)]
      /\ transactions (snd (createPayerAta env st))
         = [[createAssociatedTokenAccountInstruction (Some owner) ata (Some owner) (Some mint)]])
  /\ (forall info, getAccountInfo env rata = Normal (Some info) ->
      fst (fst (createRecipientAta env v st)) = Normal Succeeded
      /\ instructions (snd (createRecipientAta env v st)) = []
      /\ transactions (snd (createRecipientAta env v st)) = []
      /\ logs (snd (fst (createRecipientAta env v st)))
         = pushLog ("Recipient ATA exists: " +++ rata) (logs st))
  /\ (getAccountInfo env rata = Normal None ->
      instructions (snd (createRecipientAta env v st))
      = [createAssociatedTokenAccountInstruction (Some owner) rata (Some pk) (Some mint)]
      /\ transactions (snd (createRecipientAta env v st))
         = [[createAssociatedTokenAccountInstruction (Some owner) rata (Some pk) (Some mint)]]).
Proof.
  intros Hm Hw Ha Hv Hpk Hra.
  split; [intros info Hi | split; [intros Hi | split; [intros info Hi | intros Hi]]];
    unfold_handlers; simp; use_eqs; exec; repeat split.
Qed.

Lemma create_account_idempotent_witness :
  (fst (fst (createPayerAta (Demo.env (Some Demo.payer_ata)) Demo.with_mint))
   = Normal Succeeded
   /\ instructions (snd (createPayerAta (Demo.env (Some Demo.payer_ata)) Demo.with_mint)) = []
   /\ transactions (snd (createPayerAta (Demo.env (Some Demo.payer_ata)) Demo.with_mint)) = []
   /\ payerAta (snd (fst (createPayerAta (Demo.env (Some Demo.payer_ata)) Demo.with_mint)))
      = Some Demo.payer_ata
   /\ logs (snd (fst (createPayerAta (Demo.env (Some Demo.payer_ata)) Demo.with_mint)))
      = pushLog ("Payer ATA already exists: " +++ Demo.payer_ata) (logs Demo.with_mint))
  /\ instructions (snd (createPayerAta (Demo.env None) Demo.with_mint))
     = [createAssociatedTokenAccountInstruction
          (Some Demo.wallet) Demo.payer_ata (Some Demo.wallet) (Some Demo.mint)].
Proof.
  split.
  - apply (proj1 (create_account_idempotent
                    (Demo.env (Some Demo.payer_ata)) Demo.with_mint
                    Demo.mint Demo.wallet Demo.payer_ata
                    Demo.recipient Demo.recipient
                    ("ata(" +++ Demo.mint +++ "," +++ Demo.recipient +++ ")")
                    eq_refl eq_refl eq_refl eq_refl eq_refl eq_refl) []).
    reflexivity.
  - apply (proj1 (proj2 (create_account_idempotent
                    (Demo.env None) Demo.with_mint
                    Demo.mint Demo.wallet Demo.payer_ata
                    Demo.recipient Demo.recipient
                    ("ata(" +++ Demo.mint +++ "," +++ Demo.recipient +++ ")")
                    eq_refl eq_refl eq_refl eq_refl eq_refl eq_refl))).
    reflexivity.
Defined.

(** C6. The existence check reads a [null] reply as "no such account" and
    goes on to create it; a failed query is not read that way: the error
    reaches the handler's [catch], the operation ends as failed with the
    error's text in the log, no instruction is built, nothing is sent and no
    tracked cell changes. *)
Theorem account_query_error_propagates
  (env : Env) (st : State) (mint owner ata : PublicKey)
  (v : string) (pk rata : PublicKey) :
  selectedMint st = Some mint ->
  wallet_publicKey env = Some owner ->
  getAssociatedTokenAddress env mint owner = Normal ata ->
  not_string (trim v) = false ->
  new_PublicKey env (trim v) = Normal pk ->
  getAssociatedTokenAddress env mint pk = Normal rata ->
  (forall e, getAccountInfo env ata = Throw e ->
     createPayerAta env st
     = (Normal Caught,
        set_logs (pushLog ("createPayerAta failed: " +++ text e) (logs st)) st,
        [ Called (getAssociatedTokenAddress_call (Some mint) (Some owner)) true;
          Called (getAccountInfo_call ata) false;
          Logged ("createPayerAta failed: " +++ text e) ]))
  /\ (forall e, getAccountInfo env rata = Throw e ->
      createRecipientAta env v st
      = (Normal Caught,
         set_logs (pushLog ("createRecipientAta failed: " +++ text e) (logs st)) st,
         [ Called (new_PublicKey_call (trim v)) true;
           Called (getAssociatedTokenAddress_call (Some mint) (Some pk)) true;
           Called (getAccountInfo_call rata) false;
           Logged ("createRecipientAta failed: " +++ text e) ]))
  /\ (getAccountInfo env ata = Normal None ->
      exists rest,
        snd (createPayerAta env st)
        = Called (getAssociatedTokenAddress_call (Some mint) (Some owner)) true
          :: Called (getAccountInfo_call ata) true
          :: Called (instruction_call
                       (createAssociatedTokenAccountInstruction
                          (Some owner) ata (Some owner) (Some mint))) true
          :: Called (sendTransaction_call
                       [createAssociatedTokenAccountInstruction
                          (Some owner) ata (Some owner) (Some mint)])
               (is_normal (sendTransaction env
                             [createAssociatedTokenAccountInstruction
                                (Some owner) ata (Some owner) (Some mint)]))
          :: rest)
  /\ (getAccountInfo env rata = Normal None ->
      exists rest,
        snd (createRecipientAta env v st)
        = Called (new_PublicKey_call (trim v)) true
          :: Called (getAssociatedTokenAddress_call (Some mint) (Some pk)) true
          :: Called (getAccountInfo_call rata) true
          :: Called (instruction_call
                       (createAssociatedTokenAccountInstruction
                          (Some owner) rata (Some pk) (Some mint))) true
          :: Called (sendTransaction_call
                       [createAssociatedTokenAccountInstruction
                          (Some owner) rata (Some pk) (Some mint)])
               (is_normal (sendTransaction env
                             [createAssociatedTokenAccountInstruction
                                (Some owner) rata (Some pk) (Some mint)]))
          :: rest).
Proof.
  intros Hm Hw Ha Hv Hpk Hra.
  split; [intros e Hi | split; [intros e Hi | split; intros Hi]];
    unfold_handlers; simp; use_eqs; try reflexivity;
    exec; eexists; reflexivity.
Qed.

Lemma account_query_error_propagates_witness :
  createPayerAta Demo.env_transport_down Demo.with_mint
  = (Normal Caught,
     set_logs (pushLog ("createPayerAta failed: "
                          +++ text (mkError "failed to get info about account" "Error"))
                 (logs Demo.with_mint)) Demo.with_mint,
     [ Called (getAssociatedTokenAddress_call (Some Demo.mint) (Some Demo.wallet)) true;
       Called (getAccountInfo_call Demo.payer_ata) false;
       Logged ("createPayerAta failed: "
                 +++ text (mkError "failed to get info about account" "Error")) ]).
Proof.
  apply (proj1 (account_query_error_propagates
                  Demo.env_transport_down Demo.with_mint
                  Demo.mint Demo.wallet Demo.payer_ata
                  Demo.recipient Demo.recipient
                  ("ata(" +++ Demo.mint +++ "," +++ Demo.recipient +++ ")")
                  eq_refl eq_refl eq_refl eq_refl eq_refl eq_refl)).
  reflexivity.
Defined.

(** * Further properties of the code *)

(** ** Encoding: bounds and edge cases *)

Lemma le_value_app_zero (l : list Z) : le_value (l ++ [0]) = le_value l.
Proof.
  induction l as [|b l IH]; cbn [app le_value]; [reflexivity | rewrite IH; reflexivity].
Qed.

(** [u64ToBufferLE] yields a buffer exactly on the integral numbers of 64
    unsigned bits, and then eight bytes that read back as the number; on a
    number that is not integral it throws the conversion error of [BigInt],
    on a negative one or one of 2^64 and more the range error of the
    write. *)
Theorem u64ToBufferLE_cases (n : number) :
  match u64ToBufferLE n with
  | Normal b =>
      exists v, n = Integral v /\ 0 <= v < 2 ^ 64
                /\ List.length b = 8%nat /\ Forall is_byte b
                /\ readBigUInt64LE b 0 = v
  | Throw e =>
      (e = RangeError_not_an_integer /\ forall v, n <> Integral v)
      \/ (e = RangeError_out_of_range
          /\ exists v, n = Integral v /\ (v < 0 \/ 2 ^ 64 <= v))
  end.
Proof.
  destruct n as [| neg | v |];
    try (cbn; left; split; [reflexivity | intros v' Hv'; discriminate Hv']).
  unfold u64ToBufferLE, writeBigUInt64LE. cbn [BigInt].
  destruct (0 <=? v) eqn:Hlo; destruct (v <? 2 ^ 64) eqn:Hhi; cbn [andb];
    try apply Z.leb_le in Hlo; try apply Z.leb_gt in Hlo;
    try apply Z.ltb_lt in Hhi; try apply Z.ltb_ge in Hhi.
  - cbn [Buffer_alloc repeat List.length Nat.leb Nat.add firstn skipn app].
    rewrite app_nil_r. exists v.
    split; [reflexivity|]. split; [lia|]. split; [reflexivity|].
    split; [apply u64ToBufferLE_bytes|].
    unfold readBigUInt64LE. cbn [skipn]. 
    change (firstn 8 (map (byte_at v) (seq 0 8))) with (map (byte_at v) (seq 0 8)).
    apply u64ToBufferLE_value. lia.
  - right. split; [reflexivity|]. exists v. split; [reflexivity | right; lia].
  - right. split; [reflexivity|]. exists v. split; [reflexivity | left; lia].
  - right. split; [reflexivity|]. exists v. split; [reflexivity | left; lia].
Qed.

(** The payload builder never rejects the decimals: whatever integer is
    passed, the decimals byte is that integer modulo 256, while amount and
    fee are stored in full.  An amount that cannot be encoded fails the
    whole payload with its own error, whatever the fee. *)
Theorem payload_decimals_wrap (amount decimals fee : Z) (bad : number) (e : Error) :
  0 <= amount < 2 ^ 64 ->
  0 <= fee < 2 ^ 64 ->
  u64ToBufferLE bad = Throw e ->
  (exists d,
      transferCheckedWithFeeData (Integral amount) decimals (Integral fee) = Normal d
      /\ List.length d = 19%nat
      /\ readBigUInt64LE d 2 = amount
      /\ nth 10 d 0 = decimals mod 256
      /\ readBigUInt64LE d 11 = fee)
  /\ transferCheckedWithFeeData bad decimals (Integral fee) = Throw e
  /\ transferCheckedWithFeeData (Integral amount) decimals bad = Throw e.
Proof.
  intros Ha Hf Hbad. unfold transferCheckedWithFeeData.
  rewrite Hbad, (u64ToBufferLE_in_range amount Ha), (u64ToBufferLE_in_range fee Hf).
  split; [|split; reflexivity].
  eexists. split; [reflexivity|].
  split; [reflexivity|].
  split; [exact (u64ToBufferLE_value amount Ha)|].
  split; [|exact (u64ToBufferLE_value fee Hf)].
  cbn [Buffer_concat Buffer_from List.concat map seq app nth].
  change 255 with (Z.ones 8). rewrite Z.land_ones by lia. reflexivity.
Qed.

Lemma payload_decimals_wrap_witness :
  (exists d,
      transferCheckedWithFeeData (Integral 100000) 262 (Integral 1000) = Normal d
      /\ List.length d = 19%nat
      /\ readBigUInt64LE d 2 = 100000
      /\ nth 10 d 0 = 262 mod 256
      /\ readBigUInt64LE d 11 = 1000)
  /\ transferCheckedWithFeeData (Integral (-1)) 262 (Integral 1000)
     = Throw RangeError_out_of_range
  /\ transferCheckedWithFeeData (Integral 100000) 262 (Integral (-1))
     = Throw RangeError_out_of_range.
Proof.
  apply (payload_decimals_wrap 100000 262 1000 (Integral (-1)) RangeError_out_of_range);
    [lia | lia | reflexivity].
Defined.

(** The soulbound test writes its amount at offset 1, not 2: the write
    lands on the sub-instruction byte.  For every amount of 64 unsigned bits
    the payload keeps 26 as its first byte, has the low byte of the amount
    where the selector 1 was, and carries the amount divided by 256 in the
    amount field; decimals and fee are untouched.  The header is the
    selector pair [26; 1] only for an amount whose low byte is 1, and for
    the 100000 of the test it is [26; 160] with the amount field reading
    390. *)
Theorem soulbound_payload_overwrites_selector (v : Z) :
  0 <= v < 2 ^ 64 ->
  (exists d,
      SoulboundTest.data2_of (Integral v) = Normal d
      /\ List.length d = 19%nat
      /\ header d = [26; v mod 256]
      /\ readBigUInt64LE d 2 = v / 256
      /\ nth 10 d 0 = 6
      /\ readBigUInt64LE d 11 = 0
      /\ (header d = [26; 1] <-> v mod 256 = 1))
  /\ (exists d,
         SoulboundTest.data2 = Normal d
         /\ header d = [26; 160] /\ readBigUInt64LE d 2 = 390).
Proof.
  intros Hv. split; [|eexists; split; [reflexivity | split; reflexivity]].
  unfold SoulboundTest.data2_of, SoulboundTest.feeBuf, writeBigUInt64LE.
  cbn [BigInt].
  destruct Hv as [Hlo Hhi].
  pose proof Hlo as Hlo'. pose proof Hhi as Hhi'.
  apply Z.leb_le in Hlo'. apply Z.ltb_lt in Hhi'. rewrite Hlo', Hhi'.
  cbn -[byte_at Z.pow Z.div Z.modulo].
  eexists. split; [reflexivity|].
  assert (B0 : byte_at v 0 = v mod 256).
  { rewrite byte_at_div_mod. change (256 ^ Z.of_nat 0) with 1.
    now rewrite Z.div_1_r. }
  assert (A : le_value [byte_at v 1; byte_at v 2; byte_at v 3; byte_at v 4;
                        byte_at v 5; byte_at v 6; byte_at v 7; 0] = v / 256).
  { change [byte_at v 1; byte_at v 2; byte_at v 3; byte_at v 4;
            byte_at v 5; byte_at v 6; byte_at v 7; 0]
      with (map (byte_at v) (seq 1 7) ++ [0]).
    rewrite le_value_app_zero, le_value_bytes.
    change (256 ^ Z.of_nat 1) with 256. change (256 ^ Z.of_nat 7) with (2 ^ 56).
    apply Z.mod_small. split; [apply Z.div_pos; lia|].
    apply Z.div_lt_upper_bound; [lia|]. change (256 * 2 ^ 56) with (2 ^ 64). lia. }
  split; [reflexivity|].
  split; [unfold header; cbn [firstn]; rewrite B0; reflexivity|].
  split; [unfold readBigUInt64LE; cbn [skipn firstn]; exact A|].
  split; [reflexivity|]. split; [reflexivity|].
  unfold header. cbn [firstn]. rewrite B0. split.
  - intros [= H]. exact H.
  - intros H. rewrite H. reflexivity.
Qed.

Lemma soulbound_payload_overwrites_selector_witness :
  exists d,
    SoulboundTest.data2_of (Integral 100000) = Normal d
    /\ List.length d = 19%nat
    /\ header d = [26; 100000 mod 256]
    /\ readBigUInt64LE d 2 = 100000 / 256
    /\ nth 10 d 0 = 6
    /\ readBigUInt64LE d 11 = 0
    /\ (header d = [26; 1] <-> 100000 mod 256 = 1).
Proof.
  apply (soulbound_payload_overwrites_selector 100000). lia.
Defined.

(** The fee the test computes, [Math.ceil(amount * bps / 10000)], for an
    amount and a rate that are not negative and whose product is at most
    2^53, where the double-precision computation of the source is exact: it
    is the least integer whose 10000-fold covers [amount * bps]; for a rate
    of at most 10000 it lies between 0 and the amount; and it is the fee of
    the specification exactly when it does not exceed the maximum fee: under
    a smaller maximum the test's payload would carry more than the capped
    fee. *)
Theorem test_fee_least_cover (amount bps maximumFee : Z) :
  0 <= amount <= 2 ^ 53 ->
  0 <= bps <= 2 ^ 53 ->
  amount * bps <= 2 ^ 53 ->
  amount * bps <= 10000 * Tests.fee amount bps
  /\ (forall f, amount * bps <= 10000 * f -> Tests.fee amount bps <= f)
  /\ (bps <= 10000 -> 0 <= Tests.fee amount bps <= amount)
  /\ (spec_fee amount bps maximumFee = Tests.fee amount bps
      <-> Tests.fee amount bps <= maximumFee).
Proof.
  intros Ha Hb Hab.
  unfold Tests.fee, spec_fee, Math_ceil_div.
  pose proof (Z.div_mod (- (amount * bps)) 10000 ltac:(lia)) as D.
  pose proof (Z.mod_pos_bound (- (amount * bps)) 10000 ltac:(lia)) as B.
  split; [lia|].
  split.
  - intros f Hf.
    assert (- f <= - (amount * bps) / 10000); [|lia].
    apply Z.div_le_lower_bound; lia.
  - split.
    + intros Hb'. split.
      * assert (- (amount * bps) / 10000 <= 0); [|lia].
        apply Z.div_le_upper_bound; [lia|]. nia.
      * assert (- amount <= - (amount * bps) / 10000); [|lia].
        apply Z.div_le_lower_bound; [lia|]. nia.
    + split; intros H; lia.
Qed.

Lemma test_fee_least_cover_witness :
  0 <= 100000 <= 2 ^ 53
  /\ 0 <= 100 <= 2 ^ 53
  /\ 100000 * 100 <= 2 ^ 53
  /\ 100000 * 100 <= 10000 * 1000
  /\ Tests.fee 100000 100 <= 1000
  /\ 0 <= Tests.fee 100000 100 <= 100000.
Proof.
  assert (Ha : 0 <= 100000 <= 2 ^ 53) by (split; [lia | vm_compute; discriminate]).
  assert (Hb : 0 <= 100 <= 2 ^ 53) by (split; [lia | vm_compute; discriminate]).
  assert (Hab : 100000 * 100 <= 2 ^ 53) by (vm_compute; discriminate).
  pose proof (test_fee_least_cover 100000 100 1000000 Ha Hb Hab) as [_ [H1 [H2 _]]].
  split; [exact Ha|]. split; [exact Hb|]. split; [exact Hab|].
  split; [lia|].
  split; [apply (H1 1000); lia | apply H2; lia].
Defined.

(** ** The log over many writes *)

(** Writes compose: after one or more writes the log is the written
    messages, newest first, followed by the earlier log, cut to 20 entries.
    After 20 writes or more nothing of the earlier log is left.  So the log
    a handler leaves is its own messages, newest first, before the log it
    found, cut to 20. *)
Theorem log_after_writes (msgs l : list string) (env : Env) (a : Action) (st : State) :
  msgs <> [] ->
  logged (snd (handler env a st)) <> [] ->
  fold_left (fun acc s => pushLog s acc) msgs l = firstn 20 (rev msgs ++ l)
  /\ ((20 <= List.length msgs)%nat ->
      fold_left (fun acc s => pushLog s acc) msgs l = firstn 20 (rev msgs))
  /\ logs (snd (fst (handler env a st)))
     = firstn 20 (rev (logged (snd (handler env a st))) ++ logs st).
Proof.
  assert (G : forall ms l0, ms <> [] ->
              fold_left (fun acc s => pushLog s acc) ms l0 = firstn 20 (rev ms ++ l0)).
  { intros ms l0 Hne. destruct ms as [|m ms]; [contradiction|].
    cbn [fold_left rev]. unfold pushLog at 2.
    change (firstn 20 (m :: l0)) with (firstn 20 ([m] ++ l0)).
    rewrite replay_firstn, app_assoc. reflexivity. }
  intros Hm Hl. split; [apply G; exact Hm|]. split.
  - intros Hlen. rewrite (G msgs l Hm).
    rewrite firstn_app.
    replace (20 - List.length (rev msgs))%nat with 0%nat
      by (rewrite length_rev; lia).
    cbn [firstn]. apply app_nil_r.
  - rewrite handler_logs. unfold replay. apply G. exact Hl.
Qed.

Lemma log_after_writes_witness :
  fold_left (fun acc s => pushLog s acc) ["a"; "b"] ["old"] = firstn 20 (rev ["a"; "b"] ++ ["old"])
  /\ logs (snd (fst (handler (Demo.env None) CreatePayerAta Demo.with_mint)))
     = firstn 20 (rev (logged (snd (handler (Demo.env None) CreatePayerAta Demo.with_mint)))
                    ++ logs Demo.with_mint).
Proof.
  pose proof (log_after_writes ["a"; "b"] ["old"] (Demo.env None) CreatePayerAta Demo.with_mint)
    as H.
  assert (H1 : ["a"; "b"] <> []) by discriminate.
  assert (H2 : logged (snd (handler (Demo.env None) CreatePayerAta Demo.with_mint)) <> [])
    by (vm_compute; discriminate).
  destruct (H H1 H2) as [Ha [_ Hb]].
  split; [exact Ha | exact Hb].
Defined.

(** ** Which cell an entry point may change *)

(** Each cell has its own writers: the selected mint changes only in the two
    token creations, the payer account only in [createPayerAta], the payer
    balance only in [refreshPayerBalance], the mint amount only through its
    input.  In particular no transfer, withdrawal, mint-to or recipient
    action changes any cell but the log. *)
Theorem cells_have_their_writers (env : Env) (a : Action) (st : State) :
  (selectedMint (snd (fst (handler env a st))) <> selectedMint st ->
   a = CreateTaxedToken \/ a = CreateSoulboundToken)
  /\ (payerAta (snd (fst (handler env a st))) <> payerAta st -> a = CreatePayerAta)
  /\ (payerBalance (snd (fst (handler env a st))) <> payerBalance st ->
      a = RefreshPayerBalance)
  /\ (mintAmount (snd (fst (handler env a st))) <> mintAmount st ->
      exists v, a = ChangeMintAmount v).
Proof.
  destruct a;
    (split; [|split; [|split]]); intros H;
    try (left; reflexivity); try (right; reflexivity); try reflexivity;
    try (eexists; reflexivity);
    exfalso; apply H; unfold_handlers; exec; first [reflexivity | congruence].
Qed.

Lemma cells_have_their_writers_witness :
  payerAta (snd (fst (handler (Demo.env None) CreatePayerAta Demo.with_mint)))
  <> payerAta Demo.with_mint
  /\ CreatePayerAta = CreatePayerAta.
Proof.
  assert (H : payerAta (snd (fst (handler (Demo.env None) CreatePayerAta Demo.with_mint)))
              <> payerAta Demo.with_mint) by (vm_compute; discriminate).
  split; [exact H|].
  exact (proj1 (proj2 (cells_have_their_writers (Demo.env None) CreatePayerAta Demo.with_mint)) H).
Defined.

(** ** Invariants of a session *)

Lemma handler_keeps_selectedMint (env : Env) (a : Action) (st : State) :
  selectedMint st <> None -> selectedMint (snd (fst (handler env a st))) <> None.
Proof.
  destruct a; unfold_handlers; exec; intros H;
    first [discriminate | exact H | congruence].
Qed.

Lemma handler_keeps_payerAta (env : Env) (a : Action) (st : State) :
  payerAta st <> None -> payerAta (snd (fst (handler env a st))) <> None.
Proof.
  destruct a; unfold_handlers; exec; intros H;
    first [discriminate | exact H | congruence].
Qed.

Lemma handler_keeps_ata_under_mint (env : Env) (a : Action) (st : State) :
  ata_under_mint st -> ata_under_mint (snd (fst (handler env a st))).
Proof.
  unfold ata_under_mint.
  destruct a; unfold_handlers; exec; intros Inv Hata;
    first [ discriminate | apply Inv; exact Hata | congruence
          | exfalso; exact (Inv Hata eq_refl)
          | apply Inv; discriminate ].
Qed.

Lemma click_keeps_ata_under_mint (env : Env) (a : Action) (st : State) :
  ata_under_mint st -> ata_under_mint (click env a st).
Proof.
  intros H. unfold click. destruct (disabled env st a); [exact H|].
  pose proof (handler_keeps_ata_under_mint env a st H) as K.
  destruct (handler env a st) as [[r st'] tr]. exact K.
Qed.

Lemma session_keeps_ata_under_mint (script : list (Env * Action)) (st : State) :
  ata_under_mint st -> ata_under_mint (session script st).
Proof.
  revert st. induction script as [|[env a] rest IH]; intros st H; cbn [session].
  - exact H.
  - apply IH, click_keeps_ata_under_mint, H.
Qed.

Lemma session_keeps_cells (script : list (Env * Action)) (st : State) :
  (selectedMint st <> None -> selectedMint (session script st) <> None)
  /\ (payerAta st <> None -> payerAta (session script st) <> None).
Proof.
  revert st. induction script as [|[env a] rest IH]; intros st; cbn [session].
  - split; intros H; exact H.
  - assert (K : (selectedMint st <> None -> selectedMint (click env a st) <> None)
                /\ (payerAta st <> None -> payerAta (click env a st) <> None)).
    { unfold click. destruct (disabled env st a); [split; intros H; exact H|].
      pose proof (handler_keeps_selectedMint env a st) as K1.
      pose proof (handler_keeps_payerAta env a st) as K2.
      destruct (handler env a st) as [[r st'] tr]. split; assumption. }
    destruct K as [K1 K2]. destruct (IH (click env a st)) as [I1 I2].
    split; intros H; [apply I1, K1, H | apply I2, K2, H].
Qed.

(** In every state a session reaches from the initial one, a recorded payer
    account comes with a selected mint; and no entry point ever clears the
    selected mint or the payer account once set: creating another token
    replaces the mint and keeps the account recorded for the earlier one. *)
Theorem session_invariants (script : list (Env * Action)) (st : State) :
  ata_under_mint (session script initial)
  /\ (selectedMint st <> None -> selectedMint (session script st) <> None)
  /\ (payerAta st <> None -> payerAta (session script st) <> None).
Proof.
  split.
  - apply session_keeps_ata_under_mint. intros H. exfalso. apply H. reflexivity.
  - apply session_keeps_cells.
Qed.

Lemma session_invariants_witness :
  selectedMint Demo.with_mint <> None
  /\ selectedMint
       (session [(Demo.env None, CreatePayerAta); (Demo.env None, CreateSoulboundToken)]
          Demo.with_mint) <> None.
Proof.
  assert (H : selectedMint Demo.with_mint <> None) by discriminate.
  split; [exact H|].
  exact (proj1 (proj2 (session_invariants
                         [(Demo.env None, CreatePayerAta); (Demo.env None, CreateSoulboundToken)]
                         Demo.with_mint)) H).
Defined.

(** With a wallet that reports itself connected exactly when it has a key,
    in every state a session reaches from the initial one, an enabled button
    that reads no text input never stops at a precondition guard: the guards
    of the token creations, of [createPayerAta], of [mintToPayer] and of
    [refreshPayerBalance] only ever fire behind a disabled button. *)
Theorem enabled_buttons_pass_their_guards
  (script : list (Env * Action)) (env : Env) (a : Action) :
  wallet_consistent env ->
  In a [CreateTaxedToken; CreateSoulboundToken; CreatePayerAta; MintToPayer;
        RefreshPayerBalance] ->
  disabled env (session script initial) a = false ->
  fst (fst (handler env a (session script initial))) <> Normal Guarded.
Proof.
  intros Hw Ha Hd.
  assert (Inv : ata_under_mint (session script initial)).
  { apply session_keeps_ata_under_mint. intros H. exfalso. apply H. reflexivity. }
  unfold ata_under_mint in Inv. unfold wallet_consistent in Hw.
  revert Hd Inv. generalize (session script initial) as st. intros st Hd Inv.
  cbn [In] in Ha.
  destruct Ha as [<- | [<- | [<- | [<- | [<- | []]]]]]; cbn [disabled] in Hd;
    try rewrite Hw in Hd;
    destruct (wallet_publicKey env) as [w|] eqn:Ew;
    destruct (selectedMint st) as [m|] eqn:Em;
    destruct (payerAta st) as [p|] eqn:Ep;
    try discriminate Hd;
    try (exfalso; apply Inv; [discriminate | reflexivity]).
  all: unfold_handlers; simp; rewrite ?Ew, ?Em, ?Ep; simp.
  all: exec; discriminate.
Qed.

Lemma enabled_buttons_pass_their_guards_witness :
  wallet_consistent (Demo.env None)
  /\ disabled (Demo.env None)
       (session [(Demo.env None, CreateTaxedToken); (Demo.env None, CreatePayerAta)] initial)
       MintToPayer = false
  /\ fst (fst (handler (Demo.env None) MintToPayer
                 (session [(Demo.env None, CreateTaxedToken); (Demo.env None, CreatePayerAta)]
                    initial)))
     <> Normal Guarded.
Proof.
  split; [reflexivity|]. split; [vm_compute; reflexivity|].
  apply (enabled_buttons_pass_their_guards
           [(Demo.env None, CreateTaxedToken); (Demo.env None, CreatePayerAta)]
           (Demo.env None) MintToPayer);
    [reflexivity | cbn [In]; tauto | vm_compute; reflexivity].
Defined.
(** ** The payer account cell *)

(** Whatever account an entry point leaves in the payer-account cell was
    there before or is the address derived from the selected mint and the
    wallet key, recorded by [createPayerAta] after the ledger reported the
    account as existing or after the creation was sent and the confirmation
    call returned. *)
Theorem recorded_payer_account_is_derived
  (env : Env) (a : Action) (st : State) (acct : PublicKey) :
  payerAta (snd (fst (handler env a st))) = Some acct ->
  payerAta st = Some acct
  \/ (a = CreatePayerAta
      /\ exists mint owner,
          selectedMint st = Some mint
          /\ wallet_publicKey env = Some owner
          /\ getAssociatedTokenAddress env mint owner = Normal acct
          /\ ((exists info, getAccountInfo env acct = Normal (Some info))
              \/ (getAccountInfo env acct = Normal None
                  /\ exists sig r,
                      sendTransaction env
                        [createAssociatedTokenAccountInstruction
                           (Some owner) acct (Some owner) (Some mint)] = Normal sig
                      /\ confirmTransaction env sig = Normal r))).
Proof.
  destruct a; unfold_handlers; exec; intros H;
    try (left; first [exact H | congruence]).
  all: right; split; [reflexivity|]; injection H as ->;
    do 2 eexists; split; [reflexivity|]; split; [reflexivity|];
    split; [eassumption|].
  - left. eexists. eassumption.
  - right. split; [assumption|]. do 2 eexists. split; eassumption.
Qed.

Lemma recorded_payer_account_is_derived_witness :
  payerAta (snd (fst (handler (Demo.env None) CreatePayerAta Demo.with_mint)))
  = Some Demo.payer_ata
  /\ (payerAta Demo.with_mint = Some Demo.payer_ata
      \/ (CreatePayerAta = CreatePayerAta
          /\ exists mint owner,
              selectedMint Demo.with_mint = Some mint
              /\ wallet_publicKey (Demo.env None) = Some owner
              /\ getAssociatedTokenAddress (Demo.env None) mint owner = Normal Demo.payer_ata
              /\ ((exists info, getAccountInfo (Demo.env None) Demo.payer_ata
                                = Normal (Some info))
                  \/ (getAccountInfo (Demo.env None) Demo.payer_ata = Normal None
                      /\ exists sig r,
                          sendTransaction (Demo.env None)
                            [createAssociatedTokenAccountInstruction
                               (Some owner) Demo.payer_ata (Some owner) (Some mint)]
                          = Normal sig
                          /\ confirmTransaction (Demo.env None) sig = Normal r)))).
Proof.
  split; [reflexivity|].
  apply (recorded_payer_account_is_derived (Demo.env None) CreatePayerAta Demo.with_mint).
  reflexivity.
Defined.

(** Creating a token while a payer account is recorded selects the new mint
    and keeps the account of the earlier one: the next [mintToPayer] builds a
    mint-to of the new mint into the account recorded before. *)
Theorem new_mint_keeps_recorded_account
  (env env' : Env) (st : State) (ata w w' : PublicKey) (sig : Signature) (n : Z) :
  payerAta st = Some ata ->
  mintAmount st = Integral n ->
  wallet_publicKey env = Some w ->
  rpc env (createTaxedToken_method 6 100 1000000
             (Some w) (Keypair_generate env) (Some w) (Some w) (Some w)
             [Keypair_generate env]) = Normal sig ->
  wallet_publicKey env' = Some w' ->
  selectedMint (snd (fst (createTaxedToken env st))) = Some (Keypair_generate env)
  /\ payerAta (snd (fst (createTaxedToken env st))) = Some ata
  /\ instructions (snd (mintToPayer env' None (snd (fst (createTaxedToken env st)))))
     = [createMintToInstruction (Keypair_generate env) ata w' n].
Proof.
  intros Ha Hn Hw Hr Hw'.
  unfold_handlers. simp. rewrite Hw. simp. rewrite Hr. simp.
  rewrite Ha, Hw', Hn. simp.
  split; [reflexivity|]. split; [reflexivity|].
  exec; reflexivity.
Qed.

Lemma new_mint_keeps_recorded_account_witness :
  selectedMint (snd (fst (createTaxedToken (Demo.env None)
                            (set_payerAta (Some "old-account") Demo.with_mint))))
  = Some Demo.mint
  /\ payerAta (snd (fst (createTaxedToken (Demo.env None)
                           (set_payerAta (Some "old-account") Demo.with_mint))))
     = Some "old-account"
  /\ instructions
       (snd (mintToPayer (Demo.env None) None
               (snd (fst (createTaxedToken (Demo.env None)
                            (set_payerAta (Some "old-account") Demo.with_mint))))))
     = [createMintToInstruction Demo.mint "old-account" Demo.wallet 1000000].
Proof.
  apply (new_mint_keeps_recorded_account
           (Demo.env None) (Demo.env None)
           (set_payerAta (Some "old-account") Demo.with_mint)
           "old-account" Demo.wallet Demo.wallet "sig-rpc" 1000000);
    reflexivity.
Defined.

(** The recipient, transfer, inspect and withdraw handlers and the token
    creations never read the payer-account cell or the payer balance: with
    other values there they end the same way and make the same calls.  The
    source account of a transfer is therefore always the derived address,
    whatever is recorded. *)
Theorem payer_cells_not_read
  (env : Env) (a : Action) (st : State) (x : option PublicKey) (b : string) :
  In a [CreateTaxedToken; CreateSoulboundToken] \/
  (exists v, a = CreateRecipientAta v) \/ (exists v amt, a = TransferWithFee v amt) \/
  (exists v, a = InspectRecipient v) \/ (exists v, a = WithdrawWithheld v) ->
  fst (fst (handler env a (set_payerBalance b (set_payerAta x st))))
  = fst (fst (handler env a st))
  /\ snd (handler env a (set_payerBalance b (set_payerAta x st)))
     = snd (handler env a st)
  /\ selectedMint (snd (fst (handler env a (set_payerBalance b (set_payerAta x st)))))
     = selectedMint (snd (fst (handler env a st)))
  /\ payerAta (snd (fst (handler env a (set_payerBalance b (set_payerAta x st))))) = x.
Proof.
  intros [H | [[v ->] | [[v [amt ->]] | [[v ->] | [v ->]]]]];
    [cbn [In] in H; destruct H as [<- | [<- | []]]| | | |];
    unfold_handlers; exec; repeat split.
Qed.

Lemma payer_cells_not_read_witness :
  snd (handler (Demo.env None) (TransferWithFee Demo.recipient "7")
         (set_payerBalance "5" (set_payerAta (Some "elsewhere") Demo.with_mint)))
  = snd (handler (Demo.env None) (TransferWithFee Demo.recipient "7") Demo.with_mint).
Proof.
  apply (payer_cells_not_read (Demo.env None) (TransferWithFee Demo.recipient "7")
           Demo.with_mint (Some "elsewhere") "5").
  right; right; left. exists Demo.recipient, "7". reflexivity.
Defined.

(** ** Amounts that cannot be encoded *)

Lemma data_throws (n : number) :
  is_u64 n = false ->
  exists e, data n = Throw e
            /\ (e = RangeError_not_an_integer \/ e = RangeError_out_of_range).
Proof.
  intros H. unfold data, transferCheckedWithFeeData, u64ToBufferLE, writeBigUInt64LE.
  destruct n as [| neg | v |]; cbn [BigInt];
    try (eexists; split; [reflexivity | left; reflexivity]).
  cbn [is_u64] in H. rewrite H.
  eexists; split; [reflexivity | right; reflexivity].
Qed.

(** A transfer whose amount is read as a number that is not an integer of 64
    unsigned bits (a fraction, an infinity, a negative number, 2^64 or more)
    fails while the payload is encoded: the handler has parsed the key and
    derived the recipient address, but builds no instruction and calls no
    network; it ends in its [catch] with the range error in the log and the
    state as it was. *)
Theorem transfer_unencodable_amount
  (env : Env) (st : State) (v a : string) (mint pk rata : PublicKey) :
  not_string (trim v) = false ->
  not_number (Number_ env (or_string a "0")) = false ->
  is_u64 (Number_ env (or_string a "0")) = false ->
  selectedMint st = Some mint ->
  new_PublicKey env (trim v) = Normal pk ->
  getAssociatedTokenAddress env mint pk = Normal rata ->
  exists e,
    (e = RangeError_not_an_integer \/ e = RangeError_out_of_range)
    /\ transferWithFee env v a st
       = (Normal Caught,
          set_logs (pushLog ("transferWithFee failed: " +++ text e) (logs st)) st,
          [ Called (new_PublicKey_call (trim v)) true;
            Called (getAssociatedTokenAddress_call (Some mint) (Some pk)) true;
            Called (data_call (Number_ env (or_string a "0"))) false;
            Logged ("transferWithFee failed: " +++ text e) ]).
Proof.
  intros Hv Hn Hu Hm Hpk Hra.
  destruct (data_throws _ Hu) as [e [Hd He]].
  exists e. split; [exact He|].
  unfold_handlers. simp. rewrite Hv, Hn. simp.
  rewrite Hpk. simp. rewrite Hm. simp. rewrite Hra. simp.
  rewrite Hd. simp. reflexivity.
Qed.

Lemma transfer_unencodable_amount_witness :
  exists e,
    (e = RangeError_not_an_integer \/ e = RangeError_out_of_range)
    /\ transferWithFee (Demo.env None) Demo.recipient "99999999999999999999" Demo.with_mint
       = (Normal Caught,
          set_logs (pushLog ("transferWithFee failed: " +++ text e) (logs Demo.with_mint))
            Demo.with_mint,
          [ Called (new_PublicKey_call (trim Demo.recipient)) true;
            Called (getAssociatedTokenAddress_call (Some Demo.mint) (Some Demo.recipient)) true;
            Called (data_call (Number_ (Demo.env None)
                                 (or_string "99999999999999999999" "0"))) false;
            Logged ("transferWithFee failed: " +++ text e) ]).
Proof.
  apply (transfer_unencodable_amount
           (Demo.env None) Demo.with_mint Demo.recipient "99999999999999999999"
           Demo.mint Demo.recipient
           ("ata(" +++ Demo.mint +++ "," +++ Demo.recipient +++ ")"));
    vm_compute; reflexivity.
Defined.

(** [mintToPayer] converts the amount before its [try]: with mint, payer
    account and wallet present, an amount that is not integral (what the
    amount input holds after a fraction or an unreadable text was typed)
    makes the conversion error escape the handler; nothing is logged,
    nothing is built or sent, and the state is untouched. *)
Theorem mintToPayer_unconvertible_amount_escapes
  (env env' : Env) (st : State) (mint ata w : PublicKey) (value : string) :
  selectedMint st = Some mint ->
  payerAta st = Some ata ->
  wallet_publicKey env = Some w ->
  (forall z, Number_ env' value <> Integral z) ->
  mintToPayer env None (snd (fst (handler env' (ChangeMintAmount value) st)))
  = (Throw RangeError_not_an_integer,
     set_mintAmount (Number_ env' value) st,
     [])
  /\ (forall n, (forall z, n <> Integral z) ->
        mintToPayer env (Some n) st = (Throw RangeError_not_an_integer, st, [])).
Proof.
  intros Hm Ha Hw Hn. split.
  - unfold_handlers. simp. rewrite Hm, Ha, Hw. simp.
    destruct (Number_ env' value) as [| neg | z |] eqn:E; simp;
      try reflexivity.
    exfalso. apply (Hn z). reflexivity.
  - intros n Hn'. unfold_handlers. simp. rewrite Hm, Ha, Hw. simp.
    destruct n as [| neg | z |]; simp; try reflexivity.
    exfalso. apply (Hn' z). reflexivity.
Qed.

Lemma mintToPayer_unconvertible_amount_escapes_witness :
  mintToPayer (Demo.env None) None
    (snd (fst (handler (Demo.env None) (ChangeMintAmount "1.5") Demo.with_ata)))
  = (Throw RangeError_not_an_integer,
     set_mintAmount (Number_ (Demo.env None) "1.5") Demo.with_ata,
     []).
Proof.
  apply (mintToPayer_unconvertible_amount_escapes
           (Demo.env None) (Demo.env None) Demo.with_ata
           Demo.mint Demo.payer_ata Demo.wallet "1.5");
    try reflexivity.
  intros z. vm_compute. discriminate.
Defined.

(** ** What a run submits *)

Ltac close_submission :=
  cbn [transactions instructions rpc_calls read_only List.length];
  split; [lia|];
  split; [lia|];
  split; [first [left; reflexivity | right; reflexivity]|];
  split;
  [ cbn [In]; intros tx Htx;
    repeat match goal with
           | H : _ \/ _ |- _ => destruct H as [H | H]
           | H : False |- _ => destruct H
           end;
    subst; eexists; split; reflexivity
  | intros Hr; first [discriminate Hr | repeat split] ].

(** One click submits at most one thing: a run makes at most one program
    call and sends at most one transaction, never both; a transaction it
    sends consists of the one instruction the run built; and loading the
    program, refreshing the balance, inspecting a recipient and editing the
    amount build and submit nothing. *)
Theorem one_submission_per_run (env : Env) (a : Action) (st : State) :
  (List.length (transactions (snd (handler env a st))) <= 1)%nat
  /\ (List.length (rpc_calls (snd (handler env a st))) <= 1)%nat
  /\ (transactions (snd (handler env a st)) = []
      \/ rpc_calls (snd (handler env a st)) = [])
  /\ (forall tx, In tx (transactions (snd (handler env a st))) ->
        exists ix, tx = [ix] /\ instructions (snd (handler env a st)) = [ix])
  /\ (read_only a = true ->
      transactions (snd (handler env a st)) = []
      /\ rpc_calls (snd (handler env a st)) = []
      /\ instructions (snd (handler env a st)) = []).
Proof.
  destruct a; unfold_handlers; exec; close_submission.
Qed.

Lemma one_submission_per_run_witness :
  read_only RefreshPayerBalance = true
  /\ transactions (snd (handler (Demo.env None) RefreshPayerBalance Demo.with_ata)) = []
  /\ rpc_calls (snd (handler (Demo.env None) RefreshPayerBalance Demo.with_ata)) = []
  /\ instructions (snd (handler (Demo.env None) RefreshPayerBalance Demo.with_ata)) = [].
Proof.
  split; [reflexivity|].
  apply (one_submission_per_run (Demo.env None) RefreshPayerBalance Demo.with_ata).
  reflexivity.
Defined.

(** Without a wallet key or without a selected mint, the transfer and the
    withdrawal stay local: deriving the payer's address from the missing
    value throws, so whatever the inputs they build no instruction, call no
    network and do not end in success.  Without a selected mint the same
    holds for creating and for inspecting a recipient account. *)
Theorem missing_wallet_or_mint_stays_local
  (env : Env) (st : State) (v amt : string) :
  (wallet_publicKey env = None \/ selectedMint st = None ->
   (network_calls (snd (transferWithFee env v amt st)) = []
    /\ instructions (snd (transferWithFee env v amt st)) = []
    /\ fst (fst (transferWithFee env v amt st)) <> Normal Succeeded)
   /\ (network_calls (snd (withdrawWithheld env v st)) = []
       /\ instructions (snd (withdrawWithheld env v st)) = []
       /\ fst (fst (withdrawWithheld env v st)) <> Normal Succeeded))
  /\ (selectedMint st = None ->
      (network_calls (snd (createRecipientAta env v st)) = []
       /\ instructions (snd (createRecipientAta env v st)) = []
       /\ fst (fst (createRecipientAta env v st)) <> Normal Succeeded)
      /\ (network_calls (snd (inspectRecipient env v st)) = []
          /\ fst (fst (inspectRecipient env v st)) <> Normal Succeeded)).
Proof.
  split.
  - intros [Hw | Hm]; (split; unfold_handlers; simp;
      [ rewrite ?Hw, ?Hm; exec; repeat split; discriminate
      | rewrite ?Hw, ?Hm; exec; repeat split; discriminate ]).
  - intros Hm. split; unfold_handlers; simp; rewrite ?Hm; exec;
      repeat split; discriminate.
Qed.

Lemma missing_wallet_or_mint_stays_local_witness :
  wallet_publicKey Demo.env_disconnected = None
  /\ network_calls
       (snd (transferWithFee Demo.env_disconnected Demo.recipient "100000" Demo.with_mint))
     = []
  /\ instructions
       (snd (transferWithFee Demo.env_disconnected Demo.recipient "100000" Demo.with_mint))
     = []
  /\ fst (fst (transferWithFee Demo.env_disconnected Demo.recipient "100000" Demo.with_mint))
     <> Normal Succeeded.
Proof.
  split; [reflexivity|].
  apply (proj1 (proj1 (missing_wallet_or_mint_stays_local
                         Demo.env_disconnected Demo.with_mint Demo.recipient "100000")
                  (or_introl eq_refl))).
Defined.
